(** * Keyword scoring and ranking (src/agents/keyword_scorer.py)

    A shallow embedding of the [KeywordScorer] class: the weight
    normalisation of its constructor, the opportunity score, the keyword
    difficulty, the ranking-potential classifier with its recommendation
    rule chain, and [rank_keywords].

    Python [int] is [Z].  Python [float] is an instance of the class
    [Float] below; the code is written once over that class and read at
    two instances:
    - [Binary64]: IEEE-754 binary64 on Rocq's primitive floats, which is
      what CPython computes with; every evaluation and every
      counterexample of this file is run there;
    - [Exact]: the same operations with the rounding error of the
      arithmetic erased (real numbers), used for the statements that
      quantify over all weights and metrics.
    Exceptions are values of [Py.result]. *)

From Stdlib Require Import ZArith QArith Bool List String Lia.
From Stdlib Require Import Floats.
From Stdlib Require Import Reals Lra.
From Stdlib Require Import Sorted Permutation.
Import ListNotations.

Set Warnings "-inexact-float".
#[local] Open Scope Z_scope.

(** ** The Python runtime the scorer relies on *)

Module Py.

Inductive exn : Set :=
| ZeroDivisionError   (* float division by zero *)
| OverflowError       (* int too large to convert to float *)
| ValueError          (* math domain error *)
| KeyError.

Inductive result (A : Type) : Type :=
| Ok (a : A)
| Raise (e : exn).
Arguments Ok {A} a.
Arguments Raise {A} e.

Definition bind {A B : Type} (m : result A) (k : A -> result B) : result B :=
  match m with
  | Ok a => k a
  | Raise e => Raise e
  end.

(** [d.get(key, default)] on a field that may be absent. *)
Definition get {A : Type} (field : option A) (default : A) : A :=
  match field with
  | Some v => v
  | None => default
  end.

(** [l[:n]] for a Python int [n]: a negative [n] counts from the end. *)
Definition slice_to {A : Type} (l : list A) (n : Z) : list A :=
  if 0 <=? n then firstn (Z.to_nat n) l
  else firstn (List.length l - Z.to_nat (- n))%nat l.

End Py.

Notation "x <- m ;; k" := (Py.bind m (fun x => k))
  (at level 61, m at next level, right associativity).

(** ** The float operations used by the scorer

    An int literal that meets a float in a comparison or an operation
    ([min(x, 100)], [opportunity >= 70], [relevance * 100], the default
    50 of a missing score) is read as the float of the same value,
    which is exact for every literal of the source; an int variable is
    converted with [of_int], which can overflow. *)

Class Float (F : Type) : Type := {
  lit : Q -> F;               (* a numeric literal of the source text *)
  of_int : Z -> Py.result F;  (* int operand of a float operation *)
  fadd : F -> F -> F;
  fsub : F -> F -> F;
  fmul : F -> F -> F;
  fdiv : F -> F -> F;         (* IEEE division, used once the divisor is known non-zero *)
  fsqrt : F -> F;
  fabs : F -> F;
  flt : F -> F -> bool;
  fle : F -> F -> bool;
  feq : F -> F -> bool;
  fround2 : F -> F            (* round(x, 2) *)
}.

Declare Scope pyfloat_scope.
Delimit Scope pyfloat_scope with fl.
Infix "+" := fadd : pyfloat_scope.
Infix "-" := fsub : pyfloat_scope.
Infix "*" := fmul : pyfloat_scope.
Infix "/" := fdiv : pyfloat_scope.
Infix "<?" := flt : pyfloat_scope.
Infix "<=?" := fle : pyfloat_scope.
Infix "=?" := feq : pyfloat_scope.

Section PyFloat.
Context {F : Type} `{Float F}.

(** [x / y] on floats: raises on a zero divisor. *)
Definition truediv (x y : F) : Py.result F :=
  if (y =? lit 0)%fl then Py.Raise Py.ZeroDivisionError
  else Py.Ok (x / y)%fl.

(** [math.sqrt] on an int: the argument is converted first, a negative
    one is a domain error. *)
Definition math_sqrt (x : Z) : Py.result F :=
  f <- of_int x ;;
  if (f <? lit 0)%fl then Py.Raise Py.ValueError
  else Py.Ok (fsqrt f).

(** [min(a, b)]: the second argument replaces the first only when it
    compares strictly below it. *)
Definition py_min (a b : F) : F :=
  if (b <? a)%fl then b else a.

End PyFloat.

(** The integer nearest to [a * 2^e], ties to the even one. *)
Definition round_half_even (a e : Z) : Z :=
  match e with
  | Zneg p =>
      let d := Z.pow_pos 2 p in
      let q := a / d in
      match (2 * (a mod d) ?= d) with
      | Lt => q
      | Gt => q + 1
      | Eq => if Z.even q then q else q + 1
      end
  | _ => a * 2 ^ e
  end.

(** *** binary64 *)

Module Binary64.

(** The binary64 nearest to an integer (ties to even), infinite beyond
    the range. *)
Definition of_Z (z : Z) : float :=
  SF2Prim (binary_normalize prec emax z 0 false).

Definition int_to_float (z : Z) : Py.result float :=
  let f := of_Z z in
  if is_infinity f then Py.Raise Py.OverflowError else Py.Ok f.

(** A literal [p/q] with [p] and [q] below 2^53 denotes the binary64
    nearest to it: the correctly rounded quotient of two exact floats. *)
Definition literal (q : Q) : float :=
  (of_Z (Qnum q) / of_Z (Zpos (Qden q)))%float.

(** [round(x, 2)] as CPython's [double_round]: the exact binary value
    of [x] is rounded half-even to two decimals, and the decimal
    [n/100] read back as the nearest binary64.  Zeros, infinities and
    NaN are returned unchanged. *)
Definition round2 (x : float) : float :=
  match Prim2SF x with
  | S754_finite s m e =>
      match round_half_even (100 * Zpos m) e with
      | Zpos n =>
          SF2Prim (SFdiv prec emax (S754_finite s n 0) (S754_finite false 100 0))
      | _ => if s then neg_zero else zero
      end
  | _ => x
  end.

#[export] Instance binary64 : Float float := {|
  lit := literal;
  of_int := int_to_float;
  fadd := PrimFloat.add;
  fsub := PrimFloat.sub;
  fmul := PrimFloat.mul;
  fdiv := PrimFloat.div;
  fsqrt := PrimFloat.sqrt;
  fabs := PrimFloat.abs;
  flt := PrimFloat.ltb;
  fle := PrimFloat.leb;
  feq := PrimFloat.eqb;
  fround2 := round2
|}.

End Binary64.

(** *** Exact arithmetic *)

Module Exact.

(** The range check of the int-to-float conversion is kept: the first
    integer that binary64 rounds to infinity is [2^1024 - 2^970]. *)
Definition int_bound : Z := 2 ^ 1024 - 2 ^ 970.

Definition int_to_float (z : Z) : Py.result R :=
  if Z.abs z <? int_bound then Py.Ok (IZR z)
  else Py.Raise Py.OverflowError.

Definition ltb (x y : R) : bool := if Rlt_dec x y then true else false.
Definition leb (x y : R) : bool := if Rle_dec x y then true else false.
Definition eqb (x y : R) : bool := if Req_dec_T x y then true else false.

(** The integer nearest to a real, ties to the even one. *)
Definition rint (x : R) : Z :=
  let n := Int_part x in
  if Rlt_dec (frac_part x) (1 / 2) then n
  else if Rlt_dec (1 / 2) (frac_part x) then n + 1
  else if Z.even n then n else n + 1.

Definition round2 (x : R) : R := (IZR (rint (x * 100)) / 100)%R.

#[export] Instance exact : Float R := {|
  lit := Q2R;
  of_int := int_to_float;
  fadd := Rplus;
  fsub := Rminus;
  fmul := Rmult;
  fdiv := Rdiv;
  fsqrt := R_sqrt.sqrt;
  fabs := Rabs;
  flt := ltb;
  fle := leb;
  feq := eqb;
  fround2 := round2
|}.

End Exact.

(** ** The dictionaries passed around

    A dictionary used as a record is a Rocq record of optional fields:
    [None] is an absent key. *)

#[local] Open Scope string_scope.
#[local] Open Scope Z_scope.

(** The value of [estimate_ranking_potential]. *)
Module RankingPotential.
Record t {F : Type} : Type := mk {
  difficulty_category : string;
  difficulty_description : string;
  opportunity_rating : string;
  first_page_probability : F;
  recommendation : string
}.
Arguments t : clear implicits.
End RankingPotential.

(** [keyword_data]: the raw metrics of one keyword and the fields the
    scorer adds. *)
Module KeywordData.
Record t {F : Type} : Type := mk {
  keyword : option string;
  estimated_volume : option Z;
  competition_score : option Z;
  relevance_score : option F;
  first_page_probability : option F;
  opportunity_score : option F;
  ranking_potential : option (RankingPotential.t F);
  rank : option Z
}.
Arguments t : clear implicits.

(** [{}] *)
Definition empty {F : Type} : t F :=
  mk F None None None None None None None None.

(** [d['opportunity_score'] = v] *)
Definition set_opportunity_score {F : Type} (v : F) (d : t F) : t F :=
  mk F (keyword d) (estimated_volume d) (competition_score d)
     (relevance_score d) (first_page_probability d)
     (Some v) (ranking_potential d) (rank d).

(** [d['ranking_potential'] = v] *)
Definition set_ranking_potential {F : Type} (v : RankingPotential.t F) (d : t F) : t F :=
  mk F (keyword d) (estimated_volume d) (competition_score d)
     (relevance_score d) (first_page_probability d)
     (opportunity_score d) (Some v) (rank d).

(** [d['rank'] = v] *)
Definition set_rank {F : Type} (v : Z) (d : t F) : t F :=
  mk F (keyword d) (estimated_volume d) (competition_score d)
     (relevance_score d) (first_page_probability d)
     (opportunity_score d) (ranking_potential d) (Some v).
End KeywordData.

(** [serp_analysis], as read by [calculate_keyword_difficulty]. *)
Module SerpAnalysis.
Record t : Type := mk {
  big_brands_count : option Z;
  has_featured_snippet : option bool;
  has_knowledge_graph : option bool;
  has_ads : option bool;
  total_results : option Z
}.
End SerpAnalysis.

(** The records live in a store and lists hold references to them, as
    Python lists hold references to dict objects. *)
Definition ref : Set := nat.

Definition store (F : Type) : Type := ref -> KeywordData.t F.

Definition upd {F : Type} (h : store F) (r : ref) (d : KeywordData.t F) : store F :=
  fun r' => if Nat.eqb r' r then d else h r'.

(** ** [sorted(l, key=..., reverse=True)]

    The keys are computed first, then the list is sorted on them.  The
    sort is stable and [reverse=True] keeps it so: an element moves in
    front of another only when its key is strictly greater. *)
Section Sorted.
Context {K A : Type} (lt : K -> K -> bool).

Fixpoint insert_desc (x : K * A) (l : list (K * A)) : list (K * A) :=
  match l with
  | [] => [x]
  | y :: l' =>
      if lt (fst x) (fst y) then y :: insert_desc x l'
      else x :: l
  end.

Definition sort_desc (l : list (K * A)) : list (K * A) :=
  fold_right insert_desc [] l.

Fixpoint decorate (key : A -> Py.result K) (l : list A) : Py.result (list (K * A)) :=
  match l with
  | [] => Py.Ok []
  | x :: l' =>
      k <- key x ;;
      kl <- decorate key l' ;;
      Py.Ok ((k, x) :: kl)
  end.

Definition sorted_reverse (key : A -> Py.result K) (l : list A) : Py.result (list A) :=
  kl <- decorate key l ;;
  Py.Ok (map snd (sort_desc kl)).
End Sorted.

(** ** class KeywordScorer *)

Module KeywordScorer.

Import KeywordData.

(** The six recommendation texts. *)
Definition HIGH_PRIORITY :=
  "🎯 High Priority: Low competition, good volume - target immediately".
Definition QUICK_WIN :=
  "✅ Quick Win: Easy to rank, highly relevant - great for content strategy".
Definition LONG_TERM_TARGET :=
  "⚠️ Long-term Target: High competition - requires authority building".
Definition NICHE_OPPORTUNITY :=
  "💡 Niche Opportunity: Low volume but easy rank - good for specific audiences".
Definition MODERATE_OPPORTUNITY :=
  "📊 Moderate Opportunity: Balanced metrics - include in content mix".
Definition LOW_PRIORITY :=
  "⏸️ Low Priority: Better opportunities available - consider alternatives".

(** [self]: the three weights. *)
Record t {F : Type} : Type := mk {
  volume_weight : F;
  competition_weight : F;
  relevance_weight : F
}.
Arguments t : clear implicits.

Definition calculate_keyword_difficulty (serp_analysis : SerpAnalysis.t) : Z :=
  let difficulty := 0 in
  let big_brands := Py.get (SerpAnalysis.big_brands_count serp_analysis) 0 in
  let difficulty := difficulty + Z.min (big_brands * 8) 40 in
  let difficulty :=
    if Py.get (SerpAnalysis.has_featured_snippet serp_analysis) false
    then difficulty + 10 else difficulty in
  let difficulty :=
    if Py.get (SerpAnalysis.has_knowledge_graph serp_analysis) false
    then difficulty + 10 else difficulty in
  let difficulty :=
    if Py.get (SerpAnalysis.has_ads serp_analysis) false
    then difficulty + 10 else difficulty in
  let total_results := Py.get (SerpAnalysis.total_results serp_analysis) 0 in
  let difficulty :=
    if 100000000 <? total_results then difficulty + 30
    else if 10000000 <? total_results then difficulty + 20
    else if 1000000 <? total_results then difficulty + 10
    else difficulty in
  Z.min difficulty 100.

Section Scorer.
Context {F : Type} `{Float F}.

(** [__init__]: the arguments are the values of the environment
    variables VOLUME_WEIGHT, COMPETITION_WEIGHT and RELEVANCE_WEIGHT
    once read as floats, [None] for a variable that is not set. *)
Definition __init__ (VOLUME_WEIGHT COMPETITION_WEIGHT RELEVANCE_WEIGHT : option F)
  : Py.result (t F) :=
  let volume_weight := Py.get VOLUME_WEIGHT (lit 0.4) in
  let competition_weight := Py.get COMPETITION_WEIGHT (lit 0.4) in
  let relevance_weight := Py.get RELEVANCE_WEIGHT (lit 0.2) in
  let total := (volume_weight + competition_weight + relevance_weight)%fl in
  if (lit 0.01 <? fabs (total - lit 1))%fl then
    volume_weight <- truediv volume_weight total ;;
    competition_weight <- truediv competition_weight total ;;
    relevance_weight <- truediv relevance_weight total ;;
    Py.Ok (mk F volume_weight competition_weight relevance_weight)
  else
    Py.Ok (mk F volume_weight competition_weight relevance_weight).

Definition calculate_opportunity_score (self : t F) (keyword_data : KeywordData.t F)
  : Py.result F :=
  let volume := Py.get (estimated_volume keyword_data) 1000 in
  let competition := Py.get (competition_score keyword_data) 50 in
  let relevance := Py.get (relevance_score keyword_data) (lit 0.5) in
  root <- math_sqrt volume ;;
  let volume_normalized := py_min (root / lit 10)%fl (lit 100) in
  let competition_score := 100 - competition in
  let relevance_score := (relevance * lit 100)%fl in
  inverse_competition <- of_int competition_score ;;
  let opportunity_score :=
    ((volume_normalized * volume_weight self) +
     (inverse_competition * competition_weight self) +
     (relevance_score * relevance_weight self))%fl in
  Py.Ok (fround2 opportunity_score).

Definition _generate_recommendation (keyword_data : KeywordData.t F) : string :=
  let competition := Py.get (competition_score keyword_data) 50 in
  let volume := Py.get (estimated_volume keyword_data) 1000 in
  let relevance := Py.get (relevance_score keyword_data) (lit 0.5) in
  let opportunity := Py.get (opportunity_score keyword_data) (lit 50) in
  if (lit 70 <=? opportunity)%fl && (competition <? 40) then HIGH_PRIORITY
  else if (competition <? 30) && (lit 0.7 <? relevance)%fl then QUICK_WIN
  else if (5000 <? volume) && (70 <? competition) then LONG_TERM_TARGET
  else if (competition <? 30) && (volume <? 500) then NICHE_OPPORTUNITY
  else if (lit 40 <=? opportunity)%fl && (opportunity <? lit 70)%fl
       then MODERATE_OPPORTUNITY
  else LOW_PRIORITY.

Definition estimate_ranking_potential (keyword_data : KeywordData.t F)
  : RankingPotential.t F :=
  let competition := Py.get (competition_score keyword_data) 50 in
  let first_page_prob := Py.get (first_page_probability keyword_data) (lit 0.5) in
  let opportunity := Py.get (opportunity_score keyword_data) (lit 50) in
  let '(difficulty_category, difficulty_description) :=
    if competition <? 30 then
      ("Low", "Easy to rank with quality content")
    else if competition <? 50 then
      ("Medium-Low", "Good opportunity with moderate effort")
    else if competition <? 70 then
      ("Medium", "Requires strong content and backlinks")
    else if competition <? 85 then
      ("Medium-High", "Challenging, needs authority and optimization")
    else
      ("High", "Very difficult, dominated by major brands") in
  let opportunity_rating :=
    if (lit 75 <=? opportunity)%fl then "Excellent"
    else if (lit 60 <=? opportunity)%fl then "Good"
    else if (lit 45 <=? opportunity)%fl then "Fair"
    else "Poor" in
  RankingPotential.mk F
    difficulty_category difficulty_description opportunity_rating
    first_page_prob (_generate_recommendation keyword_data).

(** The first loop of [rank_keywords]: every record of the pool gets
    its score and, computed from the record that now carries the
    score, its ranking potential. *)
Fixpoint score_all (self : t F) (h : store F) (keywords_data : list ref)
  : Py.result (store F) :=
  match keywords_data with
  | [] => Py.Ok h
  | kw_data :: rest =>
      score <- calculate_opportunity_score self (h kw_data) ;;
      let h := upd h kw_data (set_opportunity_score score (h kw_data)) in
      let potential := estimate_ranking_potential (h kw_data) in
      let h := upd h kw_data (set_ranking_potential potential (h kw_data)) in
      score_all self h rest
  end.

(** The loop over [enumerate(sorted_keywords[:top_n], i)]. *)
Fixpoint assign_ranks (h : store F) (i : Z) (top : list ref) : store F :=
  match top with
  | [] => h
  | kw_data :: rest =>
      assign_ranks (upd h kw_data (set_rank i (h kw_data))) (i + 1) rest
  end.

(** [x['opportunity_score']] *)
Definition opportunity_key (h : store F) (x : ref) : Py.result F :=
  match opportunity_score (h x) with
  | Some s => Py.Ok s
  | None => Py.Raise Py.KeyError
  end.

(** [rank_keywords], with [top_n] given: the final store and the
    returned list. *)
Definition rank_keywords (self : t F) (h : store F) (keywords_data : list ref) (top_n : Z)
  : Py.result (store F * list ref) :=
  h <- score_all self h keywords_data ;;
  sorted_keywords <- sorted_reverse flt (opportunity_key h) keywords_data ;;
  let h := assign_ranks h 1 (Py.slice_to sorted_keywords top_n) in
  Py.Ok (h, Py.slice_to sorted_keywords top_n).

End Scorer.

End KeywordScorer.


(** ** Specification-side definitions

    What the specification says in its own words, to be compared with
    the code above. *)

Module Spec.

Import KeywordData KeywordScorer.

(** The first rule of a priority list whose condition holds decides. *)
Fixpoint first_match (rules : list (bool * string)) (otherwise : string) : string :=
  match rules with
  | [] => otherwise
  | (condition, text) :: rest =>
      if condition then text else first_match rest otherwise
  end.

Section Rules.
Context {F : Type} `{Float F}.
Variables (opportunity : F) (competition volume : Z) (relevance : F).

Definition rule1 : bool := (lit 70 <=? opportunity)%fl && (competition <? 40).
Definition rule2 : bool := (competition <? 30) && (lit 0.7 <? relevance)%fl.
Definition rule3 : bool := (5000 <? volume) && (70 <? competition).
Definition rule4 : bool := (competition <? 30) && (volume <? 500).
Definition rule5 : bool := (lit 40 <=? opportunity)%fl && (opportunity <? lit 70)%fl.

(** The rule chain of the recommendation, in priority order. *)
Definition recommendation_rules : list (bool * string) :=
  [ (rule1, HIGH_PRIORITY);
    (rule2, QUICK_WIN);
    (rule3, LONG_TERM_TARGET);
    (rule4, NICHE_OPPORTUNITY);
    (rule5, MODERATE_OPPORTUNITY) ].

End Rules.

Section Defaults.
Context {F : Type} `{Float F}.

(** The record with every missing raw metric replaced by its neutral
    default: volume 1000, competition 50, relevance 0.5. *)
Definition with_defaults (d : KeywordData.t F) : KeywordData.t F :=
  KeywordData.mk F (keyword d)
    (Some (Py.get (estimated_volume d) 1000))
    (Some (Py.get (competition_score d) 50))
    (Some (Py.get (relevance_score d) (lit 0.5)))
    (first_page_probability d) (opportunity_score d)
    (ranking_potential d) (rank d).

(** The same record with another competition score. *)
Definition with_competition (c : Z) (d : KeywordData.t F) : KeywordData.t F :=
  KeywordData.mk F (keyword d) (estimated_volume d) (Some c)
    (relevance_score d) (first_page_probability d) (opportunity_score d)
    (ranking_potential d) (rank d).

End Defaults.

Section Ranking.
Context {F : Type} `{Float F}.

(** [a] carries a score at least that of [b]. *)
Definition score_ge (h : store F) (a b : ref) : Prop :=
  match opportunity_score (h a), opportunity_score (h b) with
  | Some x, Some y => (y <=? x)%fl = true
  | _, _ => False
  end.

(** [r] carries a score equal ([==]) to [s]. *)
Definition same_score (h : store F) (s : F) (r : ref) : bool :=
  match opportunity_score (h r) with
  | Some x => (x =? s)%fl
  | None => false
  end.

(** What the first loop of the ranker leaves in a record scored [s]. *)
Definition annotated (d : KeywordData.t F) (s : F) : KeywordData.t F :=
  set_ranking_potential
    (estimate_ranking_potential (set_opportunity_score s d))
    (set_opportunity_score s d).

End Ranking.

End Spec.

(** ** Sample data *)

Module Sample.

(** The scorer with the weights 0.4 / 0.4 / 0.2. *)
Definition scorer : KeywordScorer.t float :=
  KeywordScorer.mk float 0.4%float 0.4%float 0.2%float.

(** volume 2400, competition 22, relevance 0.92. *)
Definition internship : KeywordData.t float :=
  KeywordData.mk float (Some "remote international internship programs")
    (Some 2400) (Some 22) (Some 0.92%float) None None None None.

(** Three big brands, featured snippet, knowledge graph, 200 million
    results; [has_ads] as given. *)
Definition crowded_serp (has_ads : option bool) : SerpAnalysis.t :=
  SerpAnalysis.mk (Some 3) (Some true) (Some true) has_ads (Some 200000000).

(** Same metrics as [internship] under another keyword: a tie. *)
Definition abroad : KeywordData.t float :=
  KeywordData.mk float (Some "paid internships abroad")
    (Some 2400) (Some 22) (Some 0.92%float) None None None None.

(** volume 40000, competition 10, relevance 0.95. *)
Definition strong : KeywordData.t float :=
  KeywordData.mk float (Some "virtual internship")
    (Some 40000) (Some 10) (Some 0.95%float) None None None None.

(** A store of four records: 0 is the empty record, 1 and 3 tie. *)
Definition pool : store float :=
  fun r =>
    match r with
    | 1%nat => abroad
    | 2%nat => strong
    | 3%nat => internship
    | _ => KeywordData.empty
    end.



(** A volume beyond the binary64 range. *)
Definition astronomic : KeywordData.t float :=
  KeywordData.mk float (Some "astronomic") (Some (10 ^ 400)) (Some 50)
    (Some 0.5%float) None None None None.



End Sample.

(** ** More of the code: further setters of the specification side *)

Module SpecMore.

Import KeywordData KeywordScorer.

(** The same analysis with another count of big brands. *)
Definition with_big_brands (b : Z) (s : SerpAnalysis.t) : SerpAnalysis.t :=
  SerpAnalysis.mk (Some b)
    (SerpAnalysis.has_featured_snippet s) (SerpAnalysis.has_knowledge_graph s)
    (SerpAnalysis.has_ads s) (SerpAnalysis.total_results s).

Section Setters.
Context {F : Type}.

(** The same record with another estimated volume. *)
Definition with_volume (v : Z) (d : KeywordData.t F) : KeywordData.t F :=
  KeywordData.mk F (keyword d) (Some v) (competition_score d)
    (relevance_score d) (first_page_probability d) (opportunity_score d)
    (ranking_potential d) (rank d).


(** Two records carry the same keyword and raw metrics. *)
Definition same_raw (d d' : KeywordData.t F) : Prop :=
  keyword d = keyword d' /\
  estimated_volume d = estimated_volume d' /\
  competition_score d = competition_score d' /\
  relevance_score d = relevance_score d' /\
  first_page_probability d = first_page_probability d'.

End Setters.

End SpecMore.

(** ** [generate_reasoning]

    The dictionary read by [generate_reasoning] is the keyword record
    together with the SERP keys that the orchestrator copied into it
    ([big_brands_count], [has_featured_snippet], [has_knowledge_graph]):
    the two records are passed side by side. *)

From Stdlib Require Ascii DecimalString.

Module Reasoning.

Import KeywordData.

(** [str(z)] for an int. *)
Definition py_str (z : Z) : string :=
  DecimalString.NilZero.string_of_int (Z.to_int z).

(** The character [','] (code 44). *)
Definition comma : Ascii.ascii := Ascii.ascii_of_nat 44.

(** A comma after every third digit, on the reversed digits. *)
Fixpoint group3 (l : list Ascii.ascii) : list Ascii.ascii :=
  match l with
  | a :: b :: c :: ((_ :: _) as rest) => a :: b :: c :: comma :: group3 rest
  | _ => l
  end.

(** [f"{z:,}"] for an int. *)
Definition format_thousands (z : Z) : string :=
  let digits := list_ascii_of_string (py_str (Z.abs z)) in
  let grouped := string_of_list_ascii (rev (group3 (rev digits))) in
  if z <? 0 then "-" ++ grouped else grouped.

Section Reasoning.
Context {F : Type} `{Float F}.

(** The list [reasons] as it stands before the final join. *)
Definition reasons (keyword_data : KeywordData.t F) (serp : SerpAnalysis.t)
  : list string :=
  let volume := Py.get (estimated_volume keyword_data) 0 in
  let competition := Py.get (competition_score keyword_data) 0 in
  let relevance := Py.get (relevance_score keyword_data) (lit 0) in
  let big_brands := Py.get (SerpAnalysis.big_brands_count serp) 0 in
  [ if 5000 <? volume then
      "high search volume (" ++ format_thousands volume ++ "/month)"
    else if 1000 <? volume then
      "moderate search volume (" ++ format_thousands volume ++ "/month)"
    else
      "low search volume (" ++ format_thousands volume ++ "/month)";
    if competition <? 30 then "low competition"
    else if competition <? 50 then "moderate competition"
    else "high competition";
    if big_brands =? 0 then "no major brands in top 10"
    else if big_brands <=? 2 then
      "only " ++ py_str big_brands ++ " major brand(s) in top 10"
    else py_str big_brands ++ " major brands dominating results";
    if (lit 0.8 <=? relevance)%fl then "highly relevant to seed keyword"
    else if (lit 0.6 <=? relevance)%fl then "moderately relevant"
    else "loosely related" ]
  ++ (if Py.get (SerpAnalysis.has_featured_snippet serp) false
      then ["featured snippet present"] else [])
  ++ (if Py.get (SerpAnalysis.has_knowledge_graph serp) false
      then ["knowledge graph present"] else []).

Definition generate_reasoning (keyword_data : KeywordData.t F) (serp : SerpAnalysis.t)
  : string :=
  let keyword := Py.get (keyword keyword_data) "" in
  keyword ++ ": " ++ String.concat ", " (reasons keyword_data serp).

End Reasoning.

End Reasoning.

(** ** Python strings and numbers used by the clients

    A [str] is the list of its code points.  Which code points are
    white space, and what [lower()] does to a string, are those of the
    Unicode tables of the interpreter: they are parameters. *)

Definition str : Set := list N.

(** A literal of the source text, all ASCII. *)
Definition str_lit (s : string) : str :=
  map (fun c => N.of_nat (Ascii.nat_of_ascii c)) (list_ascii_of_string s).

Definition str_eqb (a b : str) : bool :=
  if list_eq_dec N.eq_dec a b then true else false.

Section PyStr.
Variable isspace : N -> bool.

Fixpoint lstrip (s : str) : str :=
  match s with
  | [] => []
  | c :: s' => if isspace c then lstrip s' else s
  end.

(** [s.strip()] *)
Definition strip (s : str) : str := rev (lstrip (rev (lstrip s))).

(** [s.split()]: the maximal runs of characters that are not white
    space; [word] is the run being read, reversed. *)
Fixpoint split_from (word : str) (s : str) : list str :=
  match s with
  | [] => match word with [] => [] | _ => [rev word] end
  | c :: s' =>
      if isspace c then
        match word with
        | [] => split_from [] s'
        | _ => rev word :: split_from [] s'
        end
      else split_from (c :: word) s'
  end.

Definition split (s : str) : list str := split_from [] s.

End PyStr.

(** [needle in hay] on strings. *)
Fixpoint starts_with (needle hay : str) : bool :=
  match needle, hay with
  | [], _ => true
  | _ :: _, [] => false
  | a :: needle', b :: hay' => N.eqb a b && starts_with needle' hay'
  end.

Fixpoint contains (needle hay : str) : bool :=
  starts_with needle hay ||
  match hay with
  | [] => false
  | _ :: hay' => contains needle hay'
  end.

(** [max(a, b)] on floats: the second argument replaces the first only
    when it compares strictly above it. *)
Definition py_max {F : Type} `{Float F} (a b : F) : F :=
  if (a <? b)%fl then b else a.

(** [int(x)] on a float. *)
Class FloatInt (F : Type) : Type := {
  to_int : F -> Py.result Z
}.

Module Binary64Int.

(** The integer part of the exact value, towards zero; NaN and the
    infinities have none. *)
Definition float_to_int (x : float) : Py.result Z :=
  match Prim2SF x with
  | S754_nan => Py.Raise Py.ValueError
  | S754_infinity _ => Py.Raise Py.OverflowError
  | S754_zero _ => Py.Ok 0
  | S754_finite s m e =>
      let magnitude :=
        match e with
        | Zneg p => Zpos m / Z.pow_pos 2 p
        | _ => Zpos m * 2 ^ e
        end in
      Py.Ok (if s then - magnitude else magnitude)
  end.

#[export] Instance binary64_int : FloatInt float := {|
  to_int := float_to_int
|}.

End Binary64Int.

(** ** class GroqClient: the relevance scores

    The chat completion is outside the program.  What the client does
    with its answer is modelled on the answer once read: the number
    that [float(content)] gives, a content that is no number, or a call
    that failed. *)

Module GroqClient.

Inductive reply (F : Type) : Type :=
| Parsed (score : F)
| Unparsable
| Failed.
Arguments Parsed {F} score.
Arguments Unparsable {F}.
Arguments Failed {F}.

Section Relevance.
Context {F : Type} `{Float F}.

Definition calculate_relevance_score (answer : reply F) : F :=
  match answer with
  | Parsed score => py_max (lit 0) (py_min (lit 1) score)
  | Unparsable => lit 0.6
  | Failed => lit 0.5
  end.

(** [batch_calculate_relevance]: [batch] is the JSON object of the
    batch answer ([None] when the call or the parsing failed), as a
    lookup that gives for a keyword nothing (key absent), a value that
    [float()] rejects ([None] inside), or a number; [single] is the
    answer of the one-keyword call for each keyword.  The result is the
    dictionary of the scores, as a lookup on the candidates. *)
Definition batch_calculate_relevance
  (batch : option (str -> option (option F))) (single : str -> reply F)
  (candidate_keywords : list str) : str -> option F :=
  let fallback := fun kw =>
    if existsb (str_eqb kw) candidate_keywords
    then Some (calculate_relevance_score (single kw)) else None in
  match batch with
  | None => fallback
  | Some scores =>
      if forallb (fun kw => match scores kw with
                            | Some None => false
                            | _ => true
                            end) candidate_keywords
      then fun kw =>
             if existsb (str_eqb kw) candidate_keywords
             then Some (py_max (lit 0)
                          (py_min (lit 1)
                             (match scores kw with
                              | Some (Some score) => score
                              | _ => lit 0.5
                              end)))
             else None
      else fallback
  end.

End Relevance.

End GroqClient.

(** ** class TrendsClient: the volume estimate

    The trends service is outside the program: [average_interest] is
    the value of ['average_interest'] in what [get_interest_over_time]
    returns for the keyword, and [enabled] the flag of the client. *)

Module TrendsClient.

Section Volume.
Variable isspace : N -> bool.
Context {F : Type} `{Float F} `{FloatInt F}.

Definition _estimate_by_length (keyword : str) : Z :=
  let word_count := Z.of_nat (List.length (split isspace keyword)) in
  if word_count <=? 2 then 5000
  else if word_count =? 3 then 2000
  else if word_count =? 4 then 1000
  else 500.

(** The body of the [try] block of [estimate_search_volume], up to the
    estimate. *)
Definition scaled_volume (avg_interest base_volume : Z) : Py.result Z :=
  if avg_interest =? 0 then Py.Ok (base_volume / 10)
  else
    interest <- of_int avg_interest ;;
    let scaling_factor := (interest / lit 50)%fl in
    base <- of_int base_volume ;;
    to_int (base * scaling_factor)%fl.

Definition estimate_search_volume
  (enabled : bool) (average_interest : Z) (keyword : str) (base_volume : Z) : Z :=
  if negb enabled then _estimate_by_length keyword
  else
    match scaled_volume average_interest base_volume with
    | Py.Ok estimated_volume => Z.max estimated_volume 10
    | Py.Raise _ => _estimate_by_length keyword
    end.

End Volume.

End TrendsClient.

(** ** class SerpClient: the competition analysis

    The search itself is outside the program: [analyze_competition]
    is modelled on what [self.search] gave, [None] when it raised. *)

Module OrganicResult.
Record t : Type := mk {
  domain : option str;
  displayed_link : option str
}.
End OrganicResult.

(** The keys of the search results that the analysis reads; for the
    SERP features only the presence of the key counts. *)
Module SearchResults.
Record t : Type := mk {
  organic_results : option (list OrganicResult.t);
  search_information : option (option Z);  (* ['total_results'] inside, if any *)
  featured_snippet : bool;
  answer_box : bool;
  knowledge_graph : bool;
  ads : bool;
  top_ads : bool
}.
End SearchResults.

(** The dictionary [analysis]. *)
Module Analysis.
Record t {F : Type} : Type := mk {
  keyword : str;
  error : bool;                               (* the key ['error'] is there *)
  total_results : option Z;
  organic_results_count : option Z;
  big_brands_count : option Z;
  has_featured_snippet : option bool;
  has_knowledge_graph : option bool;
  has_ads : option bool;
  serp_features_count : option Z;
  domains : option (list str);
  competition_score : option Z;
  first_page_probability : option F
}.
Arguments t : clear implicits.

(** [analysis['first_page_probability'] = v] *)
Definition set_first_page_probability {F : Type} (v : F) (a : t F) : t F :=
  mk F (keyword a) (error a) (total_results a) (organic_results_count a)
     (big_brands_count a) (has_featured_snippet a) (has_knowledge_graph a)
     (has_ads a) (serp_features_count a) (domains a) (competition_score a)
     (Some v).
End Analysis.

Module SerpClient.

Definition high_authority_domains : list str :=
  map str_lit
    [ "wikipedia.org"; "amazon.com"; "linkedin.com";
      "indeed.com"; "glassdoor.com"; "forbes.com";
      "nytimes.com"; "medium.com"; "reddit.com";
      "youtube.com"; "stackoverflow.com"; "github.com";
      "quora.com"; "bbc.com"; "cnn.com" ].

(** [d[key]] *)
Definition item {A : Type} (field : option A) : Py.result A :=
  match field with
  | Some v => Py.Ok v
  | None => Py.Raise Py.KeyError
  end.

Section Competition.
Variable lower : str -> str.
Context {F : Type} `{Float F}.

Definition _estimate_first_page_probability (analysis : Analysis.t F) : Py.result F :=
  comp_score <- item (Analysis.competition_score analysis) ;;
  big_brands <- item (Analysis.big_brands_count analysis) ;;
  serp_features <- item (Analysis.serp_features_count analysis) ;;
  let base_prob :=
    if comp_score <? 20 then lit 0.85
    else if comp_score <? 40 then lit 0.65
    else if comp_score <? 60 then lit 0.45
    else if comp_score <? 80 then lit 0.25
    else lit 0.10 in
  brands <- of_int big_brands ;;
  let brand_penalty := py_min (brands * lit 0.08)%fl (lit 0.30) in
  features <- of_int serp_features ;;
  let feature_penalty := py_min (features * lit 0.05)%fl (lit 0.20) in
  let final_probability :=
    py_max (base_prob - brand_penalty - feature_penalty)%fl (lit 0.05) in
  Py.Ok (fround2 final_probability).

(** A domain of the top results counts as a big brand when one of the
    high-authority domains occurs in its lower-cased name. *)
Definition is_big_brand (domain : str) : bool :=
  existsb (fun auth_domain => contains auth_domain (lower domain))
    high_authority_domains.

Definition analyze_competition (keyword : str) (response : option SearchResults.t)
  : Analysis.t F :=
  let failed :=
    Analysis.mk F keyword true None None None None None None None None
      (Some 50) (Some (lit 0.3)) in
  match response with
  | None => failed
  | Some results =>
      let organic_results :=
        firstn 10 (Py.get (SearchResults.organic_results results) []) in
      let total_results :=
        match SearchResults.search_information results with
        | Some (Some n) => n
        | _ => 0
        end in
      let has_featured_snippet :=
        SearchResults.featured_snippet results || SearchResults.answer_box results in
      let has_knowledge_graph := SearchResults.knowledge_graph results in
      let has_ads := SearchResults.ads results || SearchResults.top_ads results in
      let domains :=
        map (fun result =>
               Py.get (OrganicResult.domain result)
                 (Py.get (OrganicResult.displayed_link result) []))
          organic_results in
      let big_brands_count := Z.of_nat (List.length (filter is_big_brand domains)) in
      let serp_features_count :=
        (if has_featured_snippet then 1 else 0)
        + (if has_knowledge_graph then 1 else 0)
        + (if has_ads then 1 else 0) in
      let competition_score := Z.min (big_brands_count * 10) 50 in
      let competition_score :=
        if has_featured_snippet then competition_score + 10 else competition_score in
      let competition_score :=
        if has_knowledge_graph then competition_score + 10 else competition_score in
      let competition_score :=
        if has_ads then competition_score + 10 else competition_score in
      let competition_score :=
        if 100000000 <? total_results then competition_score + 20
        else if 10000000 <? total_results then competition_score + 15
        else if 1000000 <? total_results then competition_score + 10
        else if 100000 <? total_results then competition_score + 5
        else competition_score in
      let analysis :=
        Analysis.mk F keyword false (Some total_results)
          (Some (Z.of_nat (List.length organic_results)))
          (Some big_brands_count)
          (Some has_featured_snippet) (Some has_knowledge_graph) (Some has_ads)
          (Some serp_features_count) (Some domains)
          (Some (Z.min competition_score 100)) (Some (lit 0)) in
      match _estimate_first_page_probability analysis with
      | Py.Ok probability => Analysis.set_first_page_probability probability analysis
      | Py.Raise _ => failed
      end
  end.

End Competition.

End SerpClient.

(** Vocabulary for the statements about the SERP client. *)
Module SpecSerp.

(** An analysis that has just the three keys the probability estimate
    reads. *)
Definition counts {F : Type} (comp_score big_brands serp_features : Z)
  : Analysis.t F :=
  Analysis.mk F [] false None None (Some big_brands) None None None
    (Some serp_features) None (Some comp_score) None.

(** The lowest competition score of the band of [comp_score]. *)
Definition band (comp_score : Z) : Z :=
  if comp_score <? 20 then 0
  else if comp_score <? 40 then 20
  else if comp_score <? 60 then 40
  else if comp_score <? 80 then 60
  else 80.

Definition bands : list Z := [0; 20; 40; 60; 80].
Definition upto (n : nat) : list Z := map Z.of_nat (seq 0 (S n)).

(** The search results with [n] organic results of the given domain
    and no other key. *)
Definition results_of (domain : string) (n : nat) : SearchResults.t :=
  SearchResults.mk
    (Some (repeat (OrganicResult.mk (Some (str_lit domain)) None) n))
    None false false false false false.

End SpecSerp.

(** ** class SEOKeywordAgent (main.py): merging the keyword sources

    [lower] is [str.lower], [isspace] the white space of [str.strip]. *)

Module SEOKeywordAgent.

Section Merge.
Variable isspace : N -> bool.
Variable lower : str -> str.

Definition clean (kw : str) : str := strip isspace (lower kw).

(** One turn of the loop over [all_keywords], on the set [seen] and
    the list [unique_keywords]. *)
Definition merge_step (state : list str * list str) (kw : str) : list str * list str :=
  let '(seen, unique_keywords) := state in
  let kw_clean := clean kw in
  if negb (str_eqb kw_clean [])
     && negb (existsb (str_eqb kw_clean) seen)
     && (3 <? Z.of_nat (List.length kw_clean))
  then (kw_clean :: seen, (unique_keywords ++ [kw_clean])%list)
  else state.

Definition _merge_keywords (llm_kw serp_kw trends_kw : list str) (seed_kw : str)
  : list str :=
  let all_keywords := (llm_kw ++ serp_kw ++ trends_kw)%list in
  let all_keywords := (all_keywords ++ [lower seed_kw])%list in
  snd (fold_left merge_step all_keywords ([], [])).

End Merge.

(** ASCII letters and white space, for the examples. *)
Definition ascii_lower (s : str) : str :=
  map (fun c => if (65 <=? c)%N && (c <=? 90)%N then (c + 32)%N else c) s.

Definition ascii_isspace (c : N) : bool :=
  (c =? 32)%N || ((9 <=? c)%N && (c <=? 13)%N).

End SEOKeywordAgent.
(** ** Order facts of binary64 comparisons

    Read off [SFcompare] through the specifications of the primitive
    comparisons. *)

Module Binary64Order.

Lemma SFcompare_antisym (x y : spec_float) :
  SFcompare y x = option_map CompOpp (SFcompare x y).
Proof.
  destruct x as [sx | sx | | sx mx ex], y as [sy | sy | | sy my ey];
    simpl; try reflexivity;
    try (destruct sx; reflexivity);
    try (destruct sy; reflexivity);
    try (destruct sx, sy; reflexivity).
  assert (E : Pos.compare_cont Eq my mx = CompOpp (Pos.compare_cont Eq mx my))
    by (rewrite Pos.compare_cont_antisym; reflexivity).
  destruct sx, sy; simpl; try reflexivity;
    rewrite (Z.compare_antisym ex ey);
    destruct (ex ?= ey); simpl; try reflexivity;
    rewrite E; reflexivity.
Qed.

(** [x < y] excludes [y <= x]. *)
Lemma ltb_not_leb (x y : float) :
  PrimFloat.ltb x y = true -> PrimFloat.leb y x = false.
Proof.
  rewrite ltb_spec, leb_spec. unfold SFltb, SFleb.
  rewrite (SFcompare_antisym (Prim2SF x) (Prim2SF y)).
  destruct (SFcompare (Prim2SF x) (Prim2SF y)) as [[]|]; simpl; congruence.
Qed.

(** [<] is asymmetric, NaN included. *)
Lemma ltb_asym (x y : float) :
  PrimFloat.ltb x y = true -> PrimFloat.ltb y x = false.
Proof.
  rewrite !ltb_spec. unfold SFltb.
  rewrite (SFcompare_antisym (Prim2SF x) (Prim2SF y)).
  destruct (SFcompare (Prim2SF x) (Prim2SF y)) as [[]|]; simpl; congruence.
Qed.

(** Away from NaN the order is total: not [x < y] is [y <= x]. *)
Lemma not_ltb_leb (x y : float) :
  is_nan x = false -> is_nan y = false ->
  PrimFloat.ltb x y = false -> PrimFloat.leb y x = true.
Proof.
  unfold is_nan. rewrite !eqb_spec, ltb_spec, leb_spec.
  unfold SFeqb, SFltb, SFleb.
  rewrite (SFcompare_antisym (Prim2SF x) (Prim2SF y)).
  destruct (Prim2SF x) as [sx | sx | | sx mx ex],
           (Prim2SF y) as [sy | sy | | sy my ey];
    simpl; try discriminate; intros _ _;
    try (destruct sx; simpl; congruence);
    try (destruct sy; simpl; congruence);
    try (destruct sx, sy; simpl; congruence).
  destruct sx, sy; simpl; try congruence;
    destruct (ex ?= ey); simpl; try congruence;
    destruct (Pos.compare_cont Eq mx my); simpl; congruence.
Qed.

Lemma SFleb_trans (x y z : spec_float) :
  SFleb x y = true -> SFleb y z = true -> SFleb x z = true.
Proof.
  unfold SFleb.
  destruct x as [sx | sx | | sx mx ex], y as [sy | sy | | sy my ey],
           z as [sz | sz | | sz mz ez]; simpl;
    try discriminate; try reflexivity;
    try (destruct sx; simpl; congruence);
    try (destruct sy; simpl; congruence);
    try (destruct sz; simpl; congruence);
    try (destruct sx, sy; simpl; congruence);
    try (destruct sx, sz; simpl; congruence);
    try (destruct sy, sz; simpl; congruence);
    try (destruct sx, sy, sz; simpl; congruence).
  change (Pos.compare_cont Eq mx my) with (Pos.compare mx my).
  change (Pos.compare_cont Eq my mz) with (Pos.compare my mz).
  change (Pos.compare_cont Eq mx mz) with (Pos.compare mx mz).
  destruct sx, sy, sz; simpl; try congruence;
    destruct (Z.compare_spec ex ey), (Z.compare_spec ey ez), (Z.compare_spec ex ez);
    try lia; try congruence; subst;
    destruct (Pos.compare_spec mx my), (Pos.compare_spec my mz), (Pos.compare_spec mx mz);
    simpl; try lia; try congruence.
Qed.

Lemma SFeqb_same_not_ltb (x y s : spec_float) :
  SFeqb x s = true -> SFeqb y s = true -> SFltb x y = false.
Proof.
  unfold SFeqb, SFltb.
  destruct x as [sx | sx | | sx mx ex], y as [sy | sy | | sy my ey],
           s as [ss | ss | | ss ms es]; simpl;
    try discriminate; try reflexivity;
    try (destruct sx; simpl; congruence);
    try (destruct sy; simpl; congruence);
    try (destruct ss; simpl; congruence);
    try (destruct sx, sy; simpl; congruence);
    try (destruct sx, ss; simpl; congruence);
    try (destruct sy, ss; simpl; congruence);
    try (destruct sx, sy, ss; simpl; congruence).
  change (Pos.compare_cont Eq mx my) with (Pos.compare mx my).
  change (Pos.compare_cont Eq my ms) with (Pos.compare my ms).
  change (Pos.compare_cont Eq mx ms) with (Pos.compare mx ms).
  destruct sx, sy, ss; simpl; try congruence;
    destruct (Z.compare_spec ex es), (Z.compare_spec ey es), (Z.compare_spec ex ey);
    try lia; try congruence; subst;
    destruct (Pos.compare_spec mx ms), (Pos.compare_spec my ms), (Pos.compare_spec mx my);
    simpl; try lia; try congruence.
Qed.

(** [<=] is transitive. *)
Lemma leb_trans (x y z : float) :
  PrimFloat.leb x y = true -> PrimFloat.leb y z = true -> PrimFloat.leb x z = true.
Proof. rewrite !leb_spec. apply SFleb_trans. Qed.

(** [x < y] gives [x <= y]. *)
Lemma ltb_leb (x y : float) :
  PrimFloat.ltb x y = true -> PrimFloat.leb x y = true.
Proof.
  rewrite ltb_spec, leb_spec. unfold SFltb, SFleb.
  destruct (SFcompare (Prim2SF x) (Prim2SF y)) as [[]|]; congruence.
Qed.

(** Two floats equal ([==]) to a third are not below one another. *)
Lemma eqb_same_not_ltb (x y s : float) :
  PrimFloat.eqb x s = true -> PrimFloat.eqb y s = true -> PrimFloat.ltb x y = false.
Proof. rewrite !eqb_spec, ltb_spec. apply SFeqb_same_not_ltb. Qed.

End Binary64Order.

(** ** Evaluations on binary64 *)

Module Scenarios.

Import KeywordData KeywordScorer RankingPotential Binary64 Sample.

(** The literals of the source denote the binary64 values Python reads
    them as. *)
Lemma literals :
  map literal [0.4; 0.2; 0.01; 0.5; 0.7; 1; 10; 100]%Q
  = [0.4; 0.2; 0.01; 0.5; 0.7; 1; 10; 100]%float.
Proof. vm_compute. reflexivity. Qed.

(** With no weight configured the constructor yields 0.4 / 0.4 / 0.2. *)
Lemma default_scorer : __init__ None None None = Py.Ok scorer.
Proof. vm_compute. reflexivity. Qed.

(** C7.  For volume 2400, competition 22, relevance 0.92 and the weights
    0.4/0.4/0.2 the opportunity score is 51.56: the weighted sum of
    min(sqrt(2400)/10, 100), 78 and 92, rounded to two decimals.  On the
    record carrying that score the ranking potential has difficulty
    category "Low", opportunity rating "Fair" and the rule-2 "Quick Win"
    recommendation. *)
Theorem scenario_internship :
  calculate_opportunity_score scorer internship = Py.Ok 51.56%float /\
  (let volume_norm := py_min (PrimFloat.sqrt 2400 / 10)%float 100%float in
   let competition_norm := 78%float in
   let relevance_norm := 92%float in
   (0.92 * 100)%float = relevance_norm /\
   int_to_float (100 - 22) = Py.Ok competition_norm /\
   round2 (volume_norm * 0.4 + competition_norm * 0.4 + relevance_norm * 0.2)%float
   = 51.56%float) /\
  (let potential :=
     estimate_ranking_potential (set_opportunity_score 51.56%float internship) in
   difficulty_category potential = "Low" /\
   opportunity_rating potential = "Fair" /\
   recommendation potential = QUICK_WIN).
Proof. vm_compute. repeat split; reflexivity. Qed.

(** C9.  Three big brands, a featured snippet, a knowledge graph, no ads
    (absent or false) and 200,000,000 results give difficulty
    min(3*8, 40) + 10 + 10 + 30 = 74. *)
Theorem scenario_crowded_serp :
  calculate_keyword_difficulty (crowded_serp None) = 74 /\
  calculate_keyword_difficulty (crowded_serp (Some false)) = 74 /\
  Z.min (3 * 8) 40 + 10 + 10 + 30 = 74.
Proof. repeat split; reflexivity. Qed.

End Scenarios.

(** ** Defaults for missing fields *)

Module Defaults.

Import KeywordData KeywordScorer RankingPotential Binary64 Sample Spec.

(** Scoring reads a record through its defaults. *)
Lemma score_with_defaults {F : Type} `{Float F}
  (self : KeywordScorer.t F) (d : KeywordData.t F) :
  calculate_opportunity_score self d
  = calculate_opportunity_score self (with_defaults d).
Proof. reflexivity. Qed.

(** C8.  The empty record is scored without an exception, on the
    defaults 1000 / 50 / 0.5: with the weights 0.4/0.4/0.2 the score is
    31.26 and the record carrying it is rated "Poor".  For every float
    arithmetic, scorer and record, the score is the score of the record
    with its missing raw metrics replaced by 1000, 50 and 0.5. *)
Theorem empty_record_defaults :
  calculate_opportunity_score scorer empty = Py.Ok 31.26%float /\
  with_defaults (F := float) empty
  = KeywordData.mk float None (Some 1000) (Some 50) (Some 0.5%float)
      None None None None /\
  opportunity_rating
    (estimate_ranking_potential (set_opportunity_score 31.26%float empty))
  = "Poor" /\
  (forall (F : Type) (ops : Float F)
          (self : KeywordScorer.t F) (d : KeywordData.t F),
      calculate_opportunity_score self d
      = calculate_opportunity_score self (with_defaults d) /\
      estimated_volume (with_defaults d)
      = Some (match estimated_volume d with Some v => v | None => 1000 end) /\
      competition_score (with_defaults d)
      = Some (match competition_score d with Some c => c | None => 50 end) /\
      relevance_score (with_defaults d)
      = Some (match relevance_score d with Some r => r | None => lit 0.5 end)).
Proof.
  split; [vm_compute; reflexivity|].
  split; [vm_compute; reflexivity|].
  split; [vm_compute; reflexivity|].
  intros F ops self d. repeat split.
Qed.

End Defaults.

(** ** The recommendation rule chain *)

Module Recommendation.

Import KeywordData KeywordScorer RankingPotential Binary64 Sample Spec.

(** The if/elif chain of [_generate_recommendation] is the first-match
    search through the rule list, for every float arithmetic. *)
Lemma chain_is_first_match {F : Type} `{Float F} (d : KeywordData.t F) :
  _generate_recommendation d
  = first_match
      (recommendation_rules
         (Py.get (opportunity_score d) (lit 50))
         (Py.get (competition_score d) 50)
         (Py.get (estimated_volume d) 1000)
         (Py.get (relevance_score d) (lit 0.5)))
      LOW_PRIORITY.
Proof.
  unfold _generate_recommendation, recommendation_rules,
    rule1, rule2, rule3, rule4, rule5, first_match.
  repeat match goal with
         | |- context [if ?c then _ else _] => destruct c
         end; reflexivity.
Qed.

(** On binary64, rule 5 excludes rule 1: a score below 70 is not at
    least 70. *)
Lemma rule5_excludes_rule1 (opportunity : float) (competition : Z) :
  rule5 opportunity = true -> rule1 opportunity competition = false.
Proof.
  unfold rule5, rule1. intros H5.
  apply andb_true_iff in H5 as [_ Hlt].
  apply Binary64Order.ltb_not_leb in Hlt.
  simpl in *. rewrite Hlt. reflexivity.
Qed.

(** C5.  The recommendation of a record is the text of the first rule
    that matches, in the order: (1) opportunity >= 70 and competition
    < 40, High Priority; (2) competition < 30 and relevance > 0.7, Quick
    Win; (3) volume > 5000 and competition > 70, Long-term Target; (4)
    competition < 30 and volume < 500, Niche Opportunity; (5) 40 <=
    opportunity < 70, Moderate Opportunity; (6) otherwise Low Priority.
    A record that satisfies rule 2 and rule 5 gets Quick Win. *)
Theorem recommendation_first_match (d : KeywordData.t float) :
  let opportunity := Py.get (opportunity_score d) (lit 50) in
  let competition := Py.get (competition_score d) 50 in
  let volume := Py.get (estimated_volume d) 1000 in
  let relevance := Py.get (relevance_score d) (lit 0.5) in
  _generate_recommendation d
  = first_match
      [ (rule1 opportunity competition, HIGH_PRIORITY);
        (rule2 competition relevance, QUICK_WIN);
        (rule3 competition volume, LONG_TERM_TARGET);
        (rule4 competition volume, NICHE_OPPORTUNITY);
        (rule5 opportunity, MODERATE_OPPORTUNITY) ]
      LOW_PRIORITY /\
  (rule2 competition relevance = true -> rule5 opportunity = true ->
   _generate_recommendation d = QUICK_WIN).
Proof.
  intros opportunity competition volume relevance.
  assert (E : _generate_recommendation d
              = first_match
                  (recommendation_rules opportunity competition volume relevance)
                  LOW_PRIORITY)
    by apply (chain_is_first_match d).
  split; [exact E|].
  intros H2 H5. rewrite E. unfold recommendation_rules, first_match.
  rewrite (rule5_excludes_rule1 _ competition H5), H2. reflexivity.
Qed.

Lemma recommendation_first_match_witness :
  rule2 (F := float) 22 0.92%float = true /\
  rule5 51.56%float = true /\
  _generate_recommendation (set_opportunity_score 51.56%float internship)
  = QUICK_WIN.
Proof.
  set (d := set_opportunity_score 51.56%float internship).
  assert (H2 : rule2 (F := float) 22 0.92%float = true) by (vm_compute; reflexivity).
  assert (H5 : rule5 51.56%float = true) by (vm_compute; reflexivity).
  split; [exact H2|]. split; [exact H5|].
  exact (proj2 (recommendation_first_match d) H2 H5).
Defined.

End Recommendation.

(** ** Ranking potential without a score *)

Module MissingScore.

Import KeywordData KeywordScorer RankingPotential Binary64 Sample Spec.

Section Projections.
Context {F : Type} `{Float F}.

Lemma potential_recommendation (d : KeywordData.t F) :
  recommendation (estimate_ranking_potential d) = _generate_recommendation d.
Proof.
  unfold estimate_ranking_potential.
  repeat match goal with
         | |- context [if ?c then _ else _] => destruct c
         end; reflexivity.
Qed.

Lemma potential_rating (d : KeywordData.t F) :
  opportunity_rating (estimate_ranking_potential d)
  = let opportunity := Py.get (opportunity_score d) (lit 50) in
    if (lit 75 <=? opportunity)%fl then "Excellent"
    else if (lit 60 <=? opportunity)%fl then "Good"
    else if (lit 45 <=? opportunity)%fl then "Fair"
    else "Poor".
Proof.
  unfold estimate_ranking_potential.
  repeat match goal with
         | |- context [if ?c then _ else _] => destruct c
         end; reflexivity.
Qed.

End Projections.

(** C10.  On a record without [opportunity_score] the ranking potential
    is computed, without an exception, as if the record carried the
    score 50: the rating is "Fair" whatever the volume, competition and
    relevance are, and the recommendation is the first match of the rule
    chain read at opportunity 50. *)
Theorem potential_without_score (d : KeywordData.t float) :
  opportunity_score d = None ->
  estimate_ranking_potential d
  = estimate_ranking_potential (set_opportunity_score (lit 50) d) /\
  opportunity_rating (estimate_ranking_potential d) = "Fair" /\
  recommendation (estimate_ranking_potential d)
  = first_match
      (recommendation_rules (lit 50)
         (Py.get (competition_score d) 50)
         (Py.get (estimated_volume d) 1000)
         (Py.get (relevance_score d) (lit 0.5)))
      LOW_PRIORITY.
Proof.
  intros Hnone. split; [|split].
  - destruct d as [kw vol comp rel fpp opp pot rk]. simpl in Hnone. subst opp.
    reflexivity.
  - rewrite potential_rating, Hnone. vm_compute. reflexivity.
  - rewrite potential_recommendation, Recommendation.chain_is_first_match, Hnone.
    reflexivity.
Qed.

(** The empty record scores 31.26, which would rate "Poor"; without the
    score attached its rating is "Fair". *)
Lemma potential_without_score_witness :
  opportunity_score (F := float) empty = None /\
  calculate_opportunity_score scorer empty = Py.Ok 31.26%float /\
  opportunity_rating
    (estimate_ranking_potential (set_opportunity_score 31.26%float empty))
  = "Poor" /\
  opportunity_rating (estimate_ranking_potential (F := float) empty) = "Fair".
Proof.
  split; [reflexivity|].
  split; [vm_compute; reflexivity|].
  split; [vm_compute; reflexivity|].
  exact (proj1 (proj2 (potential_without_score empty eq_refl))).
Defined.

End MissingScore.

(** ** The stable descending sort *)

Module SortFacts.

Section Insertion.
Context {K A : Type} (lt : K -> K -> bool).

Lemma insert_desc_perm (x : K * A) (l : list (K * A)) :
  Permutation (insert_desc lt x l) (x :: l).
Proof.
  induction l as [|y l IH]; simpl.
  - apply Permutation_refl.
  - destruct (lt (fst x) (fst y)).
    + apply Permutation_trans with (y :: x :: l).
      * apply perm_skip. exact IH.
      * apply perm_swap.
    + apply Permutation_refl.
Qed.

Lemma sort_desc_perm (l : list (K * A)) : Permutation (sort_desc lt l) l.
Proof.
  induction l as [|x l IH]; simpl.
  - apply perm_nil.
  - apply Permutation_trans with (x :: sort_desc lt l).
    + apply insert_desc_perm.
    + apply perm_skip. exact IH.
Qed.

(** Sortedness, for a relation [ge] that holds whenever [lt] fails the
    other way round and is transitive. *)
Section Ordered.
Variable ge : K -> K -> Prop.
Variable ok : K -> Prop.
Hypothesis ge_of_not_lt : forall x y, ok x -> ok y -> lt x y = false -> ge x y.
Hypothesis ge_of_lt : forall x y, ok x -> ok y -> lt x y = true -> ge y x.
Hypothesis ge_trans : forall x y z, ge x y -> ge y z -> ge x z.

Let ge' (p q : K * A) : Prop := ge (fst p) (fst q).
Let ok' (p : K * A) : Prop := ok (fst p).

Lemma insert_desc_sorted (x : K * A) (l : list (K * A)) :
  ok' x -> Forall ok' l ->
  StronglySorted ge' l -> StronglySorted ge' (insert_desc lt x l).
Proof.
  intros Hx Hl Hs. induction Hs as [|y l Hs IH Hy]; simpl.
  - constructor; constructor.
  - inversion Hl as [|? ? Hoky Hokl]; subst.
    destruct (lt (fst x) (fst y)) eqn:E.
    + constructor.
      * apply IH. exact Hokl.
      * assert (Hyx : ge' y x) by (apply ge_of_lt; assumption).
        apply (Permutation_Forall (Permutation_sym (insert_desc_perm x l))).
        constructor; assumption.
    + assert (Hxy : ge' x y) by (apply ge_of_not_lt; assumption).
      constructor.
      * constructor; assumption.
      * constructor; [exact Hxy|].
        eapply Forall_impl; [|exact Hy].
        intros z Hz. unfold ge' in *. eapply ge_trans; eassumption.
Qed.

Lemma sort_desc_sorted (l : list (K * A)) :
  Forall ok' l -> StronglySorted ge' (sort_desc lt l).
Proof.
  induction l as [|x l IH]; simpl; intros Hl.
  - constructor.
  - inversion Hl; subst. apply insert_desc_sorted.
    + assumption.
    + apply (Permutation_Forall (Permutation_sym (sort_desc_perm l))).
      assumption.
    + apply IH. assumption.
Qed.

End Ordered.

(** Stability: the elements whose keys fall in a class [same] of
    pairwise not-less keys keep their order. *)
Section Stable.
Variable same : K -> bool.
Hypothesis same_not_lt :
  forall x y, same x = true -> same y = true -> lt x y = false.

Let pick (p : K * A) : bool := same (fst p).

Lemma insert_desc_stable (x : K * A) (l : list (K * A)) :
  filter pick (insert_desc lt x l) = filter pick (x :: l).
Proof.
  induction l as [|y l IH]; [reflexivity|].
  simpl insert_desc. destruct (lt (fst x) (fst y)) eqn:E; [|reflexivity].
  simpl filter in *. rewrite IH.
  destruct (pick x) eqn:Px, (pick y) eqn:Py; try reflexivity.
  unfold pick in Px, Py. rewrite (same_not_lt _ _ Px Py) in E. discriminate.
Qed.

Lemma sort_desc_stable (l : list (K * A)) :
  filter pick (sort_desc lt l) = filter pick l.
Proof.
  induction l as [|x l IH]; [reflexivity|].
  simpl sort_desc. rewrite insert_desc_stable. simpl. rewrite IH. reflexivity.
Qed.

End Stable.

End Insertion.

End SortFacts.

(** ** The store *)

Module StoreFacts.

Import KeywordData KeywordScorer Spec.

Section Store.
Context {F : Type} `{Float F}.

Lemma upd_same (h : store F) (r : ref) (d : KeywordData.t F) : upd h r d r = d.
Proof. unfold upd. rewrite Nat.eqb_refl. reflexivity. Qed.

Lemma upd_other (h : store F) (r r' : ref) (d : KeywordData.t F) :
  r' <> r -> upd h r d r' = h r'.
Proof.
  intros Hne. unfold upd. destruct (Nat.eqb_spec r' r); [contradiction|reflexivity].
Qed.

(** The first loop, on a pool of distinct records that all score:
    each record of the pool ends annotated with its own score, the
    others are untouched. *)
Lemma score_all_spec (self : KeywordScorer.t F) (l : list ref) :
  forall h : store F,
    NoDup l ->
    (forall r, In r l -> exists s, calculate_opportunity_score self (h r) = Py.Ok s) ->
    exists h1,
      score_all self h l = Py.Ok h1 /\
      (forall r, In r l ->
         exists s, calculate_opportunity_score self (h r) = Py.Ok s /\
                   h1 r = annotated (h r) s) /\
      (forall r, ~ In r l -> h1 r = h r).
Proof.
  induction l as [|a l IH]; intros h Hnd Hsc.
  - exists h. simpl. repeat split; intros r []; reflexivity.
  - inversion Hnd as [|? ? Hnotin Hnd']; subst.
    destruct (Hsc a (or_introl eq_refl)) as [s Hs].
    simpl score_all. rewrite Hs. simpl Py.bind.
    rewrite !upd_same.
    set (h2 := upd _ a _).
    assert (Hh2 : forall r, r <> a -> h2 r = h r).
    { intros r Hne. unfold h2. rewrite !upd_other by exact Hne. reflexivity. }
    assert (Hh2a : h2 a = annotated (h a) s).
    { unfold h2. rewrite upd_same. reflexivity. }
    destruct (IH h2 Hnd') as (h1 & Hrun & Hin & Hout).
    { intros r Hr. rewrite Hh2.
      - apply Hsc. right. exact Hr.
      - intros ->. contradiction. }
    exists h1. split; [exact Hrun|]. split.
    + intros r [<- | Hr].
      * exists s. split; [exact Hs|]. rewrite Hout by exact Hnotin. exact Hh2a.
      * destruct (Hin r Hr) as (s' & Hs' & Hr').
        assert (Hne : r <> a) by (intros ->; contradiction).
        rewrite Hh2 in Hs', Hr' by exact Hne.
        exists s'. split; assumption.
    + intros r Hr. rewrite Hout.
      * apply Hh2. intros ->. apply Hr. left. reflexivity.
      * intros Hr'. apply Hr. right. exact Hr'.
Qed.

(** The keys of the sort are the scores the records carry. *)
Lemma decorate_keys (h : store F) (k : ref -> F) (l : list ref) :
  (forall r, In r l -> opportunity_score (h r) = Some (k r)) ->
  decorate (opportunity_key h) l = Py.Ok (map (fun r => (k r, r)) l).
Proof.
  induction l as [|a l IH]; intros Hk; [reflexivity|].
  simpl decorate. unfold opportunity_key at 1.
  rewrite (Hk a (or_introl eq_refl)). simpl Py.bind.
  rewrite IH by (intros r Hr; apply Hk; right; exact Hr).
  reflexivity.
Qed.

(** The rank loop writes [rank] only. *)
Lemma assign_ranks_score (top : list ref) :
  forall (h : store F) (i : Z) (r : ref),
    opportunity_score (assign_ranks h i top r) = opportunity_score (h r) /\
    ranking_potential (assign_ranks h i top r) = ranking_potential (h r).
Proof.
  induction top as [|a top IH]; intros h i r; [split; reflexivity|].
  simpl assign_ranks.
  destruct (IH (upd h a (set_rank i (h a))) (i + 1) r) as [-> ->].
  destruct (Nat.eq_dec r a) as [-> | Hne].
  - rewrite upd_same. split; reflexivity.
  - rewrite upd_other by exact Hne. split; reflexivity.
Qed.

Lemma assign_ranks_other (top : list ref) :
  forall (h : store F) (i : Z) (r : ref),
    ~ In r top -> assign_ranks h i top r = h r.
Proof.
  induction top as [|a top IH]; intros h i r Hr; [reflexivity|].
  simpl assign_ranks. rewrite IH.
  - apply upd_other. intros ->. apply Hr. left. reflexivity.
  - intros Hr'. apply Hr. right. exact Hr'.
Qed.

(** On distinct records, position [n] of the list gets rank [i + n]. *)
Lemma assign_ranks_rank (top : list ref) :
  forall (h : store F) (i : Z) (n : nat) (r : ref),
    NoDup top -> nth_error top n = Some r ->
    rank (assign_ranks h i top r) = Some (i + Z.of_nat n).
Proof.
  induction top as [|a top IH]; intros h i n r Hnd Hn.
  - destruct n; discriminate.
  - inversion Hnd as [|? ? Hnotin Hnd']; subst.
    simpl assign_ranks. destruct n as [|n].
    + injection Hn as ->. rewrite assign_ranks_other by exact Hnotin.
      rewrite upd_same. simpl. f_equal. lia.
    + simpl in Hn. rewrite (IH _ _ n r Hnd' Hn). f_equal. lia.
Qed.

End Store.

End StoreFacts.

(** ** rank_keywords on binary64 *)

Module Ranking.

Import KeywordData KeywordScorer Spec StoreFacts Binary64.

Lemma NoDup_firstn {A : Type} (n : nat) (l : list A) :
  NoDup l -> NoDup (firstn n l).
Proof.
  revert n. induction l as [|a l IH]; intros [|n] Hnd; simpl; try constructor.
  - inversion Hnd as [|? ? Hnotin Hnd']; subst.
    intros Hin. apply Hnotin. revert Hin. clear.
    revert n. induction l as [|b l IH]; intros [|n]; simpl; try tauto.
    intros [-> | Hin]; [left; reflexivity | right; eapply IH; exact Hin].
  - inversion Hnd; subst. apply IH. assumption.
Qed.

(** A sorted list stays sorted under a map that carries the order over
    on its elements. *)
Lemma StronglySorted_map_in {A B : Type} (R : A -> A -> Prop) (R' : B -> B -> Prop)
  (f : A -> B) (l : list A) :
  (forall a b, In a l -> In b l -> R a b -> R' (f a) (f b)) ->
  StronglySorted R l -> StronglySorted R' (map f l).
Proof.
  intros Hf Hs. induction Hs as [|a l Hs IH Ha]; simpl; constructor.
  - apply IH. intros x y Hx Hy. apply Hf; right; assumption.
  - apply Forall_map. rewrite Forall_forall in *.
    intros b Hb. apply Hf; [left; reflexivity | right; exact Hb | apply Ha; exact Hb].
Qed.

(** C2, as amended.  On a pool of pairwise distinct record objects that
    all score, without an exception, to a number (not NaN),
    [rank_keywords] with [top_n >= 0] attaches the score and the ranking
    potential to every record of the pool, retained or not, and returns
    the first min(top_n, len) records of the pool sorted by
    non-increasing score, records of equal score in their input order;
    the record at position i (from 1) carries rank i. *)
Theorem rank_keywords_spec
  (self : KeywordScorer.t float) (h : store float)
  (keywords_data : list ref) (top_n : Z) :
  0 <= top_n ->
  NoDup keywords_data ->
  (forall r, In r keywords_data ->
     exists s, calculate_opportunity_score self (h r) = Py.Ok s /\
               is_nan s = false) ->
  exists (h' : store float) (ranked sorted_keywords : list ref),
    rank_keywords self h keywords_data top_n = Py.Ok (h', ranked) /\
    (forall r, In r keywords_data ->
       exists s, calculate_opportunity_score self (h r) = Py.Ok s /\
         opportunity_score (h' r) = Some s /\
         ranking_potential (h' r)
         = Some (estimate_ranking_potential (set_opportunity_score s (h r)))) /\
    Permutation sorted_keywords keywords_data /\
    StronglySorted (score_ge h') sorted_keywords /\
    (forall s, filter (same_score h' s) sorted_keywords
               = filter (same_score h' s) keywords_data) /\
    ranked = firstn (Z.to_nat top_n) sorted_keywords /\
    List.length ranked
    = Z.to_nat (Z.min top_n (Z.of_nat (List.length keywords_data))) /\
    (forall i r, nth_error ranked i = Some r ->
                 rank (h' r) = Some (Z.of_nat i + 1)).
Proof.
  intros Htop Hnd Hsc.
  (* the first loop *)
  destruct (score_all_spec self keywords_data h Hnd) as (h1 & Hrun & Hin & _).
  { intros r Hr. destruct (Hsc r Hr) as (s & Hs & _). exists s. exact Hs. }
  assert (Hk : forall r, In r keywords_data ->
                 exists s, calculate_opportunity_score self (h r) = Py.Ok s /\
                           is_nan s = false /\ h1 r = annotated (h r) s).
  { intros r Hr. destruct (Hin r Hr) as (s & Hs & Hr1).
    destruct (Hsc r Hr) as (s' & Hs' & Hnan).
    exists s. rewrite Hs in Hs'. injection Hs' as <-. auto. }
  set (k := fun r : ref => Py.get (opportunity_score (h1 r)) PrimFloat.nan).
  assert (Hkey : forall r, In r keywords_data ->
                   opportunity_score (h1 r) = Some (k r) /\ is_nan (k r) = false).
  { intros r Hr. destruct (Hk r Hr) as (s & _ & Hnan & Hr1).
    unfold k. rewrite Hr1. simpl. auto. }
  (* the sort *)
  set (dl := map (fun r => (k r, r)) keywords_data).
  set (sl := sort_desc PrimFloat.ltb dl).
  assert (Hperm : Permutation sl dl) by apply SortFacts.sort_desc_perm.
  assert (Hdl : forall p, In p dl -> fst p = k (snd p) /\ In (snd p) keywords_data).
  { intros p Hp. unfold dl in Hp. apply in_map_iff in Hp as (r & <- & Hr). auto. }
  assert (Hsl : forall p, In p sl -> fst p = k (snd p) /\ In (snd p) keywords_data).
  { intros p Hp. apply Hdl. eapply Permutation_in; eassumption. }
  assert (Hsnd : map snd dl = keywords_data).
  { unfold dl. rewrite map_map. simpl. apply map_id. }
  assert (Hsorted : Permutation (map snd sl) keywords_data).
  { rewrite <- Hsnd. apply Permutation_map. exact Hperm. }
  assert (Hlen : List.length (map snd sl) = List.length keywords_data)
    by (apply Permutation_length; exact Hsorted).
  set (ranked := firstn (Z.to_nat top_n) (map snd sl)).
  set (h' := assign_ranks h1 1 ranked).
  assert (Hscore' : forall r, opportunity_score (h' r) = opportunity_score (h1 r)).
  { intros r. apply (assign_ranks_score ranked h1 1 r). }
  exists h', ranked, (map snd sl).
  split; [|split; [|split; [|split; [|split; [|split; [|split]]]]]].
  - unfold rank_keywords. rewrite Hrun. simpl Py.bind.
    unfold sorted_reverse.
    rewrite (decorate_keys h1 k) by (intros r Hr; apply Hkey; exact Hr).
    simpl Py.bind. unfold Py.slice_to.
    destruct (Z.leb_spec 0 top_n); [reflexivity | lia].
  - intros r Hr. destruct (Hk r Hr) as (s & Hs & _ & Hr1).
    exists s. split; [exact Hs|].
    destruct (assign_ranks_score ranked h1 1 r) as [Ho Hp].
    fold h' in Ho, Hp. rewrite Ho, Hp, Hr1. split; reflexivity.
  - exact Hsorted.
  - apply StronglySorted_map_in
      with (R := fun p q : float * ref => PrimFloat.leb (fst q) (fst p) = true).
    + intros p q Hp Hq Hle. unfold score_ge. rewrite !Hscore'.
      destruct (Hsl p Hp) as [Ep Hpin], (Hsl q Hq) as [Eq Hqin].
      destruct (Hkey _ Hpin) as [-> _], (Hkey _ Hqin) as [-> _].
      rewrite <- Ep, <- Eq. exact Hle.
    + apply (SortFacts.sort_desc_sorted PrimFloat.ltb
               (fun x y => PrimFloat.leb y x = true)
               (fun x => is_nan x = false)).
      * intros x y Hx Hy. apply Binary64Order.not_ltb_leb; assumption.
      * intros x y _ _. apply Binary64Order.ltb_leb.
      * intros x y z Hxy Hyz. eapply Binary64Order.leb_trans; eassumption.
      * apply Forall_forall. intros p Hp. destruct (Hdl p Hp) as [-> Hpin].
        apply Hkey. exact Hpin.
  - intros s.
    assert (Hpick : forall l, (forall p, In p l -> fst p = k (snd p) /\ In (snd p) keywords_data) ->
              filter (same_score h' s) (map snd l)
              = map snd (filter (fun p => PrimFloat.eqb (fst p) s) l)).
    { intros l Hl. rewrite filter_map_swap. f_equal. apply filter_ext_in.
      intros p Hp. destruct (Hl p Hp) as [Ep Hpin]. unfold same_score.
      rewrite Hscore'. destruct (Hkey _ Hpin) as [-> _]. rewrite Ep. reflexivity. }
    transitivity (filter (same_score h' s) (map snd dl));
      [|rewrite Hsnd; reflexivity].
    rewrite (Hpick sl Hsl), (Hpick dl Hdl).
    f_equal. unfold sl.
    apply (SortFacts.sort_desc_stable PrimFloat.ltb (fun x => PrimFloat.eqb x s)).
    intros x y. apply Binary64Order.eqb_same_not_ltb.
  - reflexivity.
  - unfold ranked. rewrite length_firstn, Hlen. lia.
  - intros i r Hi.
    assert (Hndr : NoDup ranked).
    { unfold ranked. apply NoDup_firstn.
      apply (Permutation_NoDup (Permutation_sym Hsorted)). exact Hnd. }
    unfold h'. rewrite (assign_ranks_rank ranked h1 1 i r Hndr Hi).
    f_equal. lia.
Qed.

End Ranking.

(** ** A run of the ranker *)

Module RankingRun.

Import KeywordData KeywordScorer Spec Binary64 Sample.

(** The pool [0; 1; 2; 3] scores 31.26, 51.56, 63.0 and 51.56; with
    [top_n = 3] the ranker returns records 2, 1, 3 with ranks 1, 2, 3,
    keeps the tie 1, 3 in input order, and leaves record 0 scored but
    unranked. *)
Lemma run_pool :
  match rank_keywords scorer pool [0; 1; 2; 3]%nat 3 with
  | Py.Ok (h', ranked) =>
      ranked = [2; 1; 3]%nat /\
      map (fun r => opportunity_score (h' r)) [0; 1; 2; 3]%nat
      = [Some 31.26; Some 51.56; Some 63; Some 51.56]%float /\
      map (fun r => rank (h' r)) [0; 1; 2; 3]%nat
      = [None; Some 2; Some 1; Some 3] /\
      map (fun r => option_map RankingPotential.opportunity_rating
                      (ranking_potential (h' r))) [0; 1; 2; 3]%nat
      = [Some "Poor"; Some "Fair"; Some "Good"; Some "Fair"]
  | Py.Raise _ => False
  end.
Proof. vm_compute. repeat split; reflexivity. Qed.

(** Outside those conditions the statement of C2 fails.  When the pool
    holds the same record object twice, the rank loop writes that
    object twice: both positions of the output show the record with
    rank 2.  When a record does not score (a volume beyond the float
    range), the ranker raises and returns nothing. *)
Lemma rank_keywords_limits :
  match rank_keywords scorer pool [1; 1]%nat 2 with
  | Py.Ok (h', ranked) =>
      ranked = [1; 1]%nat /\
      nth_error ranked 0 = Some 1%nat /\
      rank (h' 1%nat) = Some 2
  | Py.Raise _ => False
  end /\
  estimated_volume (upd pool 0%nat astronomic 0%nat) = Some (10 ^ 400) /\
  NoDup [0; 1]%nat /\
  rank_keywords scorer (upd pool 0%nat astronomic) [0; 1]%nat 2
  = Py.Raise Py.OverflowError.
Proof.
  split; [vm_compute; repeat split; reflexivity|].
  split; [reflexivity|].
  split; [repeat constructor; simpl; intuition discriminate|].
  vm_compute. reflexivity.
Qed.

Lemma rank_keywords_spec_witness :
  0 <= 3 /\
  NoDup [0; 1; 2; 3]%nat /\
  exists (h' : store float) (ranked sorted_keywords : list ref),
    rank_keywords scorer pool [0; 1; 2; 3]%nat 3 = Py.Ok (h', ranked) /\
    Permutation sorted_keywords [0; 1; 2; 3]%nat /\
    StronglySorted (score_ge h') sorted_keywords /\
    List.length ranked = 3%nat /\
    (forall i r, nth_error ranked i = Some r ->
                 rank (h' r) = Some (Z.of_nat i + 1)).
Proof.
  assert (Htop : 0 <= 3) by lia.
  assert (Hnd : NoDup [0; 1; 2; 3]%nat).
  { repeat constructor; simpl; intuition discriminate. }
  split; [exact Htop|]. split; [exact Hnd|].
  destruct (Ranking.rank_keywords_spec scorer pool [0; 1; 2; 3]%nat 3 Htop Hnd)
    as (h' & ranked & sorted_keywords & Hrun & _ & Hperm & Hsorted & _ & _ & Hlen & Hrank).
  { intros r [<- | [<- | [<- | [<- | []]]]];
      eexists; split; vm_compute; reflexivity. }
  exists h', ranked, sorted_keywords. repeat split; assumption.
Defined.

End RankingRun.

(** ** Exact arithmetic: rounding to two decimals *)

Module ExactFacts.

Import KeywordData KeywordScorer Spec Exact.
#[local] Open Scope R_scope.










(** *** The literals and helpers of the scorer *)







End ExactFacts.

(** ** The score over all weights and metrics (exact arithmetic) *)

Module ScoreRange.

Import KeywordData KeywordScorer Spec Exact ExactFacts.
#[local] Open Scope R_scope.


(** The score reads the record through its three raw metrics only,
    whatever the arithmetic. *)
Lemma score_depends_on_metrics {F : Type} `{Float F}
  (self : KeywordScorer.t F) (d d' : KeywordData.t F) :
  estimated_volume d' = estimated_volume d ->
  competition_score d' = competition_score d ->
  relevance_score d' = relevance_score d ->
  calculate_opportunity_score self d' = calculate_opportunity_score self d.
Proof.
  intros Ev Ec Er. unfold calculate_opportunity_score.
  rewrite Ev, Ec, Er. reflexivity.
Qed.





End ScoreRange.

(** ** The constructor *)

Module Init.

Import KeywordData KeywordScorer Spec Exact ExactFacts.
#[local] Open Scope R_scope.



End Init.

(** ** The limits of binary64 *)

Module Limits.

Import KeywordData KeywordScorer Spec Binary64 Sample.

(** The integer bound kept by the exact arithmetic is the one of
    binary64: the last integer that converts, and the first that does
    not. *)
Lemma int_bound_binary64 :
  int_to_float (Exact.int_bound - 1) = Py.Ok 0x1.fffffffffffffp+1023%float /\
  int_to_float Exact.int_bound = Py.Raise Py.OverflowError.
Proof. vm_compute. split; reflexivity. Qed.

(** The ends of the range on binary64, with the weights 0.4, 0.4, 0.2:
    no volume, full competition and no relevance score 0; a volume past
    the cap of the square root, no competition and full relevance score
    100. *)
Lemma score_extremes :
  calculate_opportunity_score scorer
    (KeywordData.mk float None (Some 0) (Some 100) (Some 0%float) None None None None)
  = Py.Ok 0%float /\
  calculate_opportunity_score scorer
    (KeywordData.mk float None (Some (10 ^ 12)) (Some 0) (Some 1%float) None None None None)
  = Py.Ok 100%float.
Proof. vm_compute. split; reflexivity. Qed.

(** With the weights 0.4, 0.4, 0.2 every step of the competition score
    from 0 to 100 lowers the binary64 score of the sample record. *)
Lemma default_weights_strict :
  forallb
    (fun c =>
       match calculate_opportunity_score scorer (with_competition (Z.of_nat c) internship),
             calculate_opportunity_score scorer (with_competition (Z.of_nat c + 1) internship)
       with
       | Py.Ok s1, Py.Ok s2 => PrimFloat.ltb s2 s1
       | _, _ => false
       end)
    (seq 0 100)
  = true.
Proof. vm_compute. reflexivity. Qed.



(** C4.  With the three weights configured as 0 (non-negative floats)
    the sum is 0, which is more than 0.01 away from 1, so the
    normalisation divides by it: the constructor raises
    ZeroDivisionError. *)
Theorem init_zero_weights :
  PrimFloat.leb 0 0 = true /\
  PrimFloat.ltb 0.01 (abs (0 + 0 + 0 - 1)) = true /\
  PrimFloat.eqb (0 + 0 + 0) 0 = true /\
  __init__ (Some 0%float) (Some 0%float) (Some 0%float)
  = Py.Raise Py.ZeroDivisionError.
Proof. vm_compute. repeat split; reflexivity. Qed.


End Limits.

(** ** Keyword difficulty over all inputs *)

Module Difficulty.

Import KeywordScorer SpecMore.

(** The points of the three factors, read off the record. *)
Lemma difficulty_unfold (s : SerpAnalysis.t) :
  calculate_keyword_difficulty s
  = Z.min
      (Z.min (Py.get (SerpAnalysis.big_brands_count s) 0 * 8) 40
       + (if Py.get (SerpAnalysis.has_featured_snippet s) false then 10 else 0)
       + (if Py.get (SerpAnalysis.has_knowledge_graph s) false then 10 else 0)
       + (if Py.get (SerpAnalysis.has_ads s) false then 10 else 0)
       + (if 100000000 <? Py.get (SerpAnalysis.total_results s) 0 then 30
          else if 10000000 <? Py.get (SerpAnalysis.total_results s) 0 then 20
          else if 1000000 <? Py.get (SerpAnalysis.total_results s) 0 then 10
          else 0))
      100.
Proof.
  unfold calculate_keyword_difficulty.
  destruct (Py.get (SerpAnalysis.has_featured_snippet s) false),
    (Py.get (SerpAnalysis.has_knowledge_graph s) false),
    (Py.get (SerpAnalysis.has_ads s) false),
    (100000000 <? Py.get (SerpAnalysis.total_results s) 0),
    (10000000 <? Py.get (SerpAnalysis.total_results s) 0),
    (1000000 <? Py.get (SerpAnalysis.total_results s) 0);
    f_equal; lia.
Qed.

(** X1.  The keyword difficulty never exceeds 100, and the three
    factors can never add up to more than 100, so the final clamp
    leaves their sum as it is.  It is at least 0 when the count of big
    brands is not negative; a negative count is not clamped from below
    and lowers the result by 8 per unit. *)
Theorem difficulty_bounds (s : SerpAnalysis.t) :
  calculate_keyword_difficulty s <= 100 /\
  calculate_keyword_difficulty s
  = Z.min (Py.get (SerpAnalysis.big_brands_count s) 0 * 8) 40
    + (if Py.get (SerpAnalysis.has_featured_snippet s) false then 10 else 0)
    + (if Py.get (SerpAnalysis.has_knowledge_graph s) false then 10 else 0)
    + (if Py.get (SerpAnalysis.has_ads s) false then 10 else 0)
    + (if 100000000 <? Py.get (SerpAnalysis.total_results s) 0 then 30
       else if 10000000 <? Py.get (SerpAnalysis.total_results s) 0 then 20
       else if 1000000 <? Py.get (SerpAnalysis.total_results s) 0 then 10
       else 0) /\
  (0 <= Py.get (SerpAnalysis.big_brands_count s) 0 ->
   0 <= calculate_keyword_difficulty s) /\
  (Py.get (SerpAnalysis.big_brands_count s) 0 < 0 ->
   calculate_keyword_difficulty s
   <= 60 + 8 * Py.get (SerpAnalysis.big_brands_count s) 0).
Proof.
  rewrite difficulty_unfold.
  destruct (Py.get (SerpAnalysis.has_featured_snippet s) false),
    (Py.get (SerpAnalysis.has_knowledge_graph s) false),
    (Py.get (SerpAnalysis.has_ads s) false),
    (100000000 <? Py.get (SerpAnalysis.total_results s) 0),
    (10000000 <? Py.get (SerpAnalysis.total_results s) 0),
    (1000000 <? Py.get (SerpAnalysis.total_results s) 0);
    repeat split; lia.
Qed.

Lemma difficulty_bounds_witness :
  0 <= calculate_keyword_difficulty (Sample.crowded_serp (Some true)) <= 100 /\
  calculate_keyword_difficulty
    (with_big_brands (-20) (Sample.crowded_serp None)) <= -100.
Proof.
  pose proof (difficulty_bounds (Sample.crowded_serp (Some true)))
    as (Hle & _ & Hge & _).
  pose proof (difficulty_bounds (with_big_brands (-20) (Sample.crowded_serp None)))
    as (_ & _ & _ & Hneg).
  split.
  - split; [apply Hge; simpl; lia | exact Hle].
  - eapply Z.le_trans; [apply Hneg; simpl; lia | simpl; lia].
Defined.

(** X2.  The keyword difficulty is monotone: more big brands, more SERP
    features present and more total results never lower it.  It
    saturates at five big brands: any count of five or more gives the
    difficulty of five. *)
Theorem difficulty_monotone (s s' : SerpAnalysis.t) :
  Py.get (SerpAnalysis.big_brands_count s) 0
  <= Py.get (SerpAnalysis.big_brands_count s') 0 ->
  Py.get (SerpAnalysis.total_results s) 0
  <= Py.get (SerpAnalysis.total_results s') 0 ->
  implb (Py.get (SerpAnalysis.has_featured_snippet s) false)
        (Py.get (SerpAnalysis.has_featured_snippet s') false) = true ->
  implb (Py.get (SerpAnalysis.has_knowledge_graph s) false)
        (Py.get (SerpAnalysis.has_knowledge_graph s') false) = true ->
  implb (Py.get (SerpAnalysis.has_ads s) false)
        (Py.get (SerpAnalysis.has_ads s') false) = true ->
  calculate_keyword_difficulty s <= calculate_keyword_difficulty s' /\
  (5 <= Py.get (SerpAnalysis.big_brands_count s) 0 ->
   calculate_keyword_difficulty s
   = calculate_keyword_difficulty (with_big_brands 5 s)).
Proof.
  intros Hb Ht Hf Hk Ha. rewrite !difficulty_unfold.
  unfold with_big_brands. cbn [SerpAnalysis.big_brands_count
    SerpAnalysis.has_featured_snippet SerpAnalysis.has_knowledge_graph
    SerpAnalysis.has_ads SerpAnalysis.total_results Py.get].
  fold (Py.get (SerpAnalysis.has_featured_snippet s) false).
  fold (Py.get (SerpAnalysis.has_knowledge_graph s) false).
  fold (Py.get (SerpAnalysis.has_ads s) false).
  fold (Py.get (SerpAnalysis.total_results s) 0).
  destruct (Py.get (SerpAnalysis.has_featured_snippet s) false),
    (Py.get (SerpAnalysis.has_featured_snippet s') false); try discriminate;
  destruct (Py.get (SerpAnalysis.has_knowledge_graph s) false),
    (Py.get (SerpAnalysis.has_knowledge_graph s') false); try discriminate;
  destruct (Py.get (SerpAnalysis.has_ads s) false),
    (Py.get (SerpAnalysis.has_ads s') false); try discriminate;
  destruct (Z.ltb_spec 100000000 (Py.get (SerpAnalysis.total_results s) 0)),
    (Z.ltb_spec 10000000 (Py.get (SerpAnalysis.total_results s) 0)),
    (Z.ltb_spec 1000000 (Py.get (SerpAnalysis.total_results s) 0)),
    (Z.ltb_spec 100000000 (Py.get (SerpAnalysis.total_results s') 0)),
    (Z.ltb_spec 10000000 (Py.get (SerpAnalysis.total_results s') 0)),
    (Z.ltb_spec 1000000 (Py.get (SerpAnalysis.total_results s') 0));
    split; lia.
Qed.

Lemma difficulty_monotone_witness :
  calculate_keyword_difficulty (Sample.crowded_serp None)
  <= calculate_keyword_difficulty
       (with_big_brands 7 (Sample.crowded_serp (Some true))) /\
  calculate_keyword_difficulty
    (with_big_brands 7 (Sample.crowded_serp (Some true)))
  = calculate_keyword_difficulty
      (with_big_brands 5 (with_big_brands 7 (Sample.crowded_serp (Some true)))).
Proof.
  split.
  - apply (difficulty_monotone (Sample.crowded_serp None)
             (with_big_brands 7 (Sample.crowded_serp (Some true))));
      simpl; (reflexivity || lia).
  - apply (difficulty_monotone
             (with_big_brands 7 (Sample.crowded_serp (Some true)))
             (with_big_brands 7 (Sample.crowded_serp (Some true))));
      simpl; (reflexivity || lia).
Defined.

End Difficulty.

(** ** The fields of a ranking potential agree with one another *)

Module Consistency.

Import KeywordData KeywordScorer RankingPotential Binary64 Sample Spec.

(** The six recommendation texts are pairwise different. *)
Lemma texts_distinct :
  NoDup [HIGH_PRIORITY; QUICK_WIN; LONG_TERM_TARGET; NICHE_OPPORTUNITY;
         MODERATE_OPPORTUNITY; LOW_PRIORITY].
Proof.
  repeat constructor; simpl; intuition discriminate.
Qed.

Section AnyArithmetic.
Context {F : Type} `{Float F}.

(** What a recommendation tells about the competition score read by the
    classifier. *)
Lemma recommendation_competition (d : KeywordData.t F) :
  let competition := Py.get (competition_score d) 50 in
  (_generate_recommendation d = HIGH_PRIORITY -> competition < 40) /\
  (_generate_recommendation d = QUICK_WIN -> competition < 30) /\
  (_generate_recommendation d = NICHE_OPPORTUNITY -> competition < 30) /\
  (_generate_recommendation d = LONG_TERM_TARGET -> 70 < competition).
Proof.
  intros competition. unfold _generate_recommendation. fold competition.
  destruct (Z.ltb_spec competition 40), (Z.ltb_spec competition 30),
    (Z.ltb_spec 70 competition);
    try lia;
    rewrite ?andb_false_r, ?andb_true_r; cbn [andb];
    repeat match goal with
           | |- context [if ?c then _ else _] => destruct c
           end;
    repeat split; intros E; try lia; discriminate E.
Qed.

Lemma category_bands (d : KeywordData.t F) :
  let competition := Py.get (competition_score d) 50 in
  difficulty_category (estimate_ranking_potential d)
  = if competition <? 30 then "Low"
    else if competition <? 50 then "Medium-Low"
    else if competition <? 70 then "Medium"
    else if competition <? 85 then "Medium-High"
    else "High".
Proof.
  intros competition. unfold estimate_ranking_potential. fold competition.
  repeat match goal with
         | |- context [if ?c then _ else _] => destruct c
         end; reflexivity.
Qed.

End AnyArithmetic.

(** X3.  In every ranking potential the recommendation and the
    difficulty category agree: "High Priority" comes only with the
    category "Low" or "Medium-Low", "Quick Win" and "Niche Opportunity"
    only with "Low", and "Long-term Target" only with "Medium-High" or
    "High".  This holds for every float arithmetic. *)
Theorem recommendation_matches_category
  (F : Type) (ops : Float F) (d : KeywordData.t F) :
  let p := estimate_ranking_potential d in
  (recommendation p = HIGH_PRIORITY ->
   difficulty_category p = "Low" \/ difficulty_category p = "Medium-Low") /\
  (recommendation p = QUICK_WIN \/ recommendation p = NICHE_OPPORTUNITY ->
   difficulty_category p = "Low") /\
  (recommendation p = LONG_TERM_TARGET ->
   difficulty_category p = "Medium-High" \/ difficulty_category p = "High").
Proof.
  intros p. unfold p.
  rewrite MissingScore.potential_recommendation, category_bands.
  destruct (recommendation_competition d) as (H1 & H2 & H4 & H3).
  set (competition := Py.get (competition_score d) 50) in *.
  repeat split.
  - intros E. specialize (H1 E).
    destruct (Z.ltb_spec competition 30); [left; reflexivity|].
    destruct (Z.ltb_spec competition 50); [right; reflexivity | lia].
  - intros [E | E]; [specialize (H2 E) | specialize (H4 E)];
      destruct (Z.ltb_spec competition 30); (reflexivity || lia).
  - intros E. specialize (H3 E).
    destruct (Z.ltb_spec competition 30); [lia|].
    destruct (Z.ltb_spec competition 50); [lia|].
    destruct (Z.ltb_spec competition 70); [lia|].
    destruct (Z.ltb_spec competition 85); [left | right]; reflexivity.
Qed.

Lemma recommendation_matches_category_witness :
  recommendation
    (estimate_ranking_potential (set_opportunity_score 51.56%float internship))
  = QUICK_WIN /\
  difficulty_category
    (estimate_ranking_potential (set_opportunity_score 51.56%float internship))
  = "Low".
Proof.
  assert (E : recommendation
                (estimate_ranking_potential
                   (set_opportunity_score 51.56%float internship))
              = QUICK_WIN) by (vm_compute; reflexivity).
  split; [exact E|].
  apply (proj1 (proj2 (recommendation_matches_category float binary64
                         (set_opportunity_score 51.56%float internship)))).
  left. exact E.
Defined.

(** X4.  On binary64, a record whose opportunity score is at least 70
    and whose competition score is at least 40 is never recommended as
    "High Priority" or "Moderate Opportunity": the recommendation is
    "Long-term Target" when the volume is above 5000 and the competition
    above 70, and "Low Priority" otherwise, even when the score rates
    "Excellent" or "Good". *)
Theorem high_score_high_competition (d : KeywordData.t float) (s : float) :
  opportunity_score d = Some s ->
  PrimFloat.leb 70 s = true ->
  40 <= Py.get (competition_score d) 50 ->
  let p := estimate_ranking_potential d in
  (opportunity_rating p = "Excellent" \/ opportunity_rating p = "Good") /\
  recommendation p
  = (if (5000 <? Py.get (estimated_volume d) 1000)
        && (70 <? Py.get (competition_score d) 50)
     then LONG_TERM_TARGET else LOW_PRIORITY).
Proof.
  intros Hs H70 Hc p. unfold p. split.
  - rewrite MissingScore.potential_rating, Hs. cbn [Py.get].
    assert (H60 : PrimFloat.leb 60 s = true).
    { apply (Binary64Order.leb_trans 60 70 s); [vm_compute; reflexivity | exact H70]. }
    change ((lit 60 <=? s)%fl) with (PrimFloat.leb 60 s). rewrite H60.
    destruct (lit 75 <=? s)%fl; [left | right]; reflexivity.
  - rewrite MissingScore.potential_recommendation.
    unfold _generate_recommendation. rewrite Hs. cbn [Py.get].
    set (competition := Py.get (competition_score d) 50) in *.
    assert (Hlt : (s <? lit 70)%fl = false).
    { destruct (s <? lit 70)%fl eqn:E; [|reflexivity].
      apply Binary64Order.ltb_not_leb in E.
      change (PrimFloat.leb (lit 70) s) with (PrimFloat.leb 70 s) in E.
      congruence. }
    rewrite Hlt, andb_false_r.
    destruct (Z.ltb_spec competition 40); [lia|].
    destruct (Z.ltb_spec competition 30); [lia|].
    rewrite andb_false_r. cbn [andb].
    destruct ((5000 <? Py.get (estimated_volume d) 1000) && (70 <? competition));
      reflexivity.
Qed.

Lemma high_score_high_competition_witness :
  opportunity_rating
    (estimate_ranking_potential
       (with_competition 45 (set_opportunity_score 80%float internship)))
  = "Excellent" /\
  recommendation
    (estimate_ranking_potential
       (with_competition 45 (set_opportunity_score 80%float internship)))
  = LOW_PRIORITY.
Proof.
  split; [vm_compute; reflexivity|].
  apply (proj2 (high_score_high_competition
                  (with_competition 45 (set_opportunity_score 80%float internship))
                  80%float eq_refl eq_refl ltac:(simpl; lia))).
Defined.

End Consistency.

(** ** What the ranker leaves alone, and what it returns for any top_n *)

Module RankingFrame.

Import KeywordData KeywordScorer Spec SpecMore StoreFacts Binary64.

Lemma firstn_incl {A : Type} (n : nat) (l : list A) : incl (firstn n l) l.
Proof.
  revert n. induction l as [|a l IH]; intros [|n] x Hx; simpl in Hx;
    try contradiction.
  destruct Hx as [<- | Hx]; [left; reflexivity | right; apply (IH n); exact Hx].
Qed.

Lemma slice_to_incl {A : Type} (l : list A) (n : Z) : incl (Py.slice_to l n) l.
Proof. unfold Py.slice_to. destruct (0 <=? n); apply firstn_incl. Qed.

Lemma slice_to_length {A : Type} (l : list A) (n : Z) :
  Z.of_nat (List.length (Py.slice_to l n))
  = if 0 <=? n then Z.min n (Z.of_nat (List.length l))
    else Z.max (Z.of_nat (List.length l) + n) 0.
Proof.
  unfold Py.slice_to. destruct (Z.leb_spec 0 n); rewrite length_firstn; lia.
Qed.

Section AnyArithmetic.
Context {F : Type} `{Float F}.

Lemma same_raw_refl (d : KeywordData.t F) : same_raw d d.
Proof. repeat split. Qed.

Lemma same_raw_trans (d1 d2 d3 : KeywordData.t F) :
  same_raw d1 d2 -> same_raw d2 d3 -> same_raw d1 d3.
Proof.
  unfold same_raw. intros (-> & -> & -> & -> & ->) H23. exact H23.
Qed.

(** The first loop writes the score and the potential only, and only
    in records of the pool. *)
Lemma score_all_frame (self : KeywordScorer.t F) (l : list ref) :
  forall h h1 : store F,
    score_all self h l = Py.Ok h1 ->
    forall r, same_raw (h1 r) (h r) /\
              rank (h1 r) = rank (h r) /\
              (~ In r l -> h1 r = h r).
Proof.
  induction l as [|a l IH]; intros h h1 Hrun r.
  - simpl in Hrun. injection Hrun as <-.
    split; [apply same_raw_refl|]. split; reflexivity.
  - simpl in Hrun.
    destruct (calculate_opportunity_score self (h a)) as [s|e];
      [|discriminate]. simpl in Hrun.
    destruct (IH _ _ Hrun r) as (Hraw & Hrank & Hout).
    rewrite !upd_same in Hraw, Hrank, Hout.
    destruct (Nat.eq_dec r a) as [-> | Hne].
    + rewrite upd_same in Hraw, Hrank. split; [|split].
      * eapply same_raw_trans; [exact Hraw|]. repeat split.
      * rewrite Hrank. reflexivity.
      * intros Hn. exfalso. apply Hn. left. reflexivity.
    + rewrite !upd_other in Hraw, Hrank by exact Hne. split; [|split].
      * exact Hraw.
      * exact Hrank.
      * intros Hn. rewrite Hout.
        -- rewrite !upd_other by exact Hne. reflexivity.
        -- intros Hin. apply Hn. right. exact Hin.
Qed.

(** The rank loop leaves the raw metrics alone. *)
Lemma assign_ranks_raw (top : list ref) :
  forall (h : store F) (i : Z) (r : ref),
    same_raw (assign_ranks h i top r) (h r).
Proof.
  induction top as [|a top IH]; intros h i r; [apply same_raw_refl|].
  simpl assign_ranks.
  eapply same_raw_trans; [apply IH|].
  destruct (Nat.eq_dec r a) as [-> | Hne].
  - rewrite upd_same. repeat split.
  - rewrite upd_other by exact Hne. apply same_raw_refl.
Qed.

Lemma decorate_snd {K : Type} (key : ref -> Py.result K) (l : list ref) :
  forall kl, decorate key l = Py.Ok kl -> map snd kl = l.
Proof.
  induction l as [|a l IH]; intros kl Hd; simpl in Hd.
  - injection Hd as <-. reflexivity.
  - destruct (key a) as [k|e]; [|discriminate]. simpl in Hd.
    destruct (decorate key l) as [kl'|e]; [|discriminate]. simpl in Hd.
    injection Hd as <-. simpl. rewrite (IH kl' eq_refl). reflexivity.
Qed.

(** A run of the ranker that returns went through its three steps. *)
Lemma rank_keywords_steps
  (self : KeywordScorer.t F) (h h' : store F) (l ranked : list ref) (n : Z) :
  rank_keywords self h l n = Py.Ok (h', ranked) ->
  exists (h1 : store F) (sorted_keywords : list ref),
    score_all self h l = Py.Ok h1 /\
    Permutation sorted_keywords l /\
    ranked = Py.slice_to sorted_keywords n /\
    h' = assign_ranks h1 1 ranked.
Proof.
  unfold rank_keywords, sorted_reverse. intros Hrun.
  destruct (score_all self h l) as [h1|e]; [|discriminate]. simpl in Hrun.
  destruct (decorate (opportunity_key h1) l) as [kl|e] eqn:Hd; [|discriminate].
  simpl in Hrun. injection Hrun as <- <-.
  exists h1, (map snd (sort_desc flt kl)).
  split; [reflexivity|]. split; [|split; reflexivity].
  pose proof (decorate_snd _ _ _ Hd) as Hsnd.
  apply Permutation_trans with (map snd kl).
  - apply Permutation_map. apply SortFacts.sort_desc_perm.
  - rewrite Hsnd. apply Permutation_refl.
Qed.

End AnyArithmetic.

(** X5.  Whenever [rank_keywords] returns, in every float arithmetic:
    the keyword and the raw metrics (volume, competition, relevance,
    first-page probability) of every record are what they were, the
    records outside the pool are untouched, and the returned list holds
    records of the pool only. *)
Theorem rank_keywords_frame
  (F : Type) (ops : Float F) (self : KeywordScorer.t F)
  (h h' : store F) (keywords_data ranked : list ref) (top_n : Z) :
  rank_keywords self h keywords_data top_n = Py.Ok (h', ranked) ->
  (forall r, same_raw (h' r) (h r)) /\
  (forall r, ~ In r keywords_data -> h' r = h r) /\
  incl ranked keywords_data.
Proof.
  intros Hrun.
  destruct (rank_keywords_steps self h h' keywords_data ranked top_n Hrun)
    as (h1 & sorted_keywords & Hscore & Hperm & -> & ->).
  assert (Hincl : incl (Py.slice_to sorted_keywords top_n) keywords_data).
  { intros r Hr. apply (Permutation_in _ Hperm).
    apply (slice_to_incl sorted_keywords top_n). exact Hr. }
  split; [|split].
  - intros r. eapply same_raw_trans; [apply assign_ranks_raw|].
    apply (score_all_frame self keywords_data h h1 Hscore r).
  - intros r Hr. rewrite assign_ranks_other.
    + apply (score_all_frame self keywords_data h h1 Hscore r). exact Hr.
    + intros Hin. apply Hr. apply Hincl. exact Hin.
  - exact Hincl.
Qed.

Lemma rank_keywords_frame_witness :
  match rank_keywords Sample.scorer Sample.pool [0; 1; 2; 3]%nat 3 with
  | Py.Ok (h', ranked) =>
      estimated_volume (h' 3%nat) = Some 2400 /\ h' 7%nat = KeywordData.empty
  | Py.Raise _ => False
  end.
Proof.
  destruct (rank_keywords Sample.scorer Sample.pool [0; 1; 2; 3]%nat 3)
    as [[h' ranked]|e] eqn:Hrun; [|vm_compute in Hrun; discriminate Hrun].
  destruct (rank_keywords_frame float binary64 Sample.scorer
              Sample.pool h' [0; 1; 2; 3]%nat ranked 3 Hrun)
    as (Hraw & Hout & _).
  split.
  - destruct (Hraw 3%nat) as (_ & -> & _). reflexivity.
  - rewrite Hout; [reflexivity|]. simpl. intuition discriminate.
Defined.

(** X6.  Whenever [rank_keywords] returns, the number of records it
    returns is min(top_n, len) for top_n >= 0 and, because a negative
    top_n is a slice bound counted from the end, max(len + top_n, 0)
    for top_n < 0: with top_n = -1 the ranker drops the last record of
    the sorted pool instead of returning nothing. *)
Theorem rank_keywords_count
  (F : Type) (ops : Float F) (self : KeywordScorer.t F)
  (h h' : store F) (keywords_data ranked : list ref) (top_n : Z) :
  rank_keywords self h keywords_data top_n = Py.Ok (h', ranked) ->
  Z.of_nat (List.length ranked)
  = if 0 <=? top_n then Z.min top_n (Z.of_nat (List.length keywords_data))
    else Z.max (Z.of_nat (List.length keywords_data) + top_n) 0.
Proof.
  intros Hrun.
  destruct (rank_keywords_steps self h h' keywords_data ranked top_n Hrun)
    as (h1 & sorted_keywords & _ & Hperm & -> & _).
  rewrite slice_to_length, (Permutation_length Hperm). reflexivity.
Qed.

Lemma rank_keywords_count_witness :
  match rank_keywords Sample.scorer Sample.pool [0; 1; 2; 3]%nat (-1) with
  | Py.Ok (h', ranked) => List.length ranked = 3%nat
  | Py.Raise _ => False
  end.
Proof.
  destruct (rank_keywords Sample.scorer Sample.pool [0; 1; 2; 3]%nat (-1))
    as [[h' ranked]|e] eqn:Hrun; [|vm_compute in Hrun; discriminate Hrun].
  pose proof (rank_keywords_count float binary64 Sample.scorer
                Sample.pool h' [0; 1; 2; 3]%nat ranked (-1) Hrun) as Hlen.
  simpl in Hlen. lia.
Defined.

End RankingFrame.

(** ** Ranking a ranked list again *)

Module Rerank.

Import KeywordData KeywordScorer Spec SpecMore StoreFacts Binary64.

(** A list already in descending order is left as it is by the sort. *)
Lemma sort_desc_fixed {K A : Type} (lt : K -> K -> bool) (l : list (K * A)) :
  StronglySorted (fun p q => lt (fst p) (fst q) = false) l ->
  sort_desc lt l = l.
Proof.
  intros Hs. induction Hs as [|x l Hs IH Hx]; [reflexivity|].
  simpl sort_desc. fold (sort_desc lt l). rewrite IH.
  destruct l as [|y l']; [reflexivity|].
  simpl. inversion Hx as [|? ? Hxy _]; subst. rewrite Hxy. reflexivity.
Qed.

Lemma StronglySorted_firstn {A : Type} (R : A -> A -> Prop) (n : nat) (l : list A) :
  StronglySorted R l -> StronglySorted R (firstn n l).
Proof.
  intros Hs. revert n. induction Hs as [|x l Hs IH Hx]; intros [|n]; simpl;
    try constructor.
  - apply IH.
  - apply Forall_forall. intros y Hy. rewrite Forall_forall in Hx.
    apply Hx. apply (RankingFrame.firstn_incl n l). exact Hy.
Qed.

Lemma leb_not_ltb (x y : float) :
  PrimFloat.leb y x = true -> PrimFloat.ltb x y = false.
Proof.
  intros Hle. destruct (PrimFloat.ltb x y) eqn:E; [|reflexivity].
  apply Binary64Order.ltb_not_leb in E. congruence.
Qed.

Section AnyArithmetic.
Context {F : Type} `{Float F}.

(** On distinct records, the rank loop changes the record at position
    [n] into the same record with rank [i + n]. *)
Lemma assign_ranks_at (top : list ref) :
  forall (h : store F) (i : Z) (n : nat) (r : ref),
    NoDup top -> nth_error top n = Some r ->
    assign_ranks h i top r = set_rank (i + Z.of_nat n) (h r).
Proof.
  induction top as [|a top IH]; intros h i n r Hnd Hn.
  - destruct n; discriminate.
  - inversion Hnd as [|? ? Hnotin Hnd']; subst.
    simpl assign_ranks. destruct n as [|n].
    + injection Hn as ->. rewrite assign_ranks_other by exact Hnotin.
      rewrite upd_same. f_equal. simpl. lia.
    + simpl in Hn. rewrite (IH _ _ n r Hnd' Hn).
      assert (Hne : r <> a).
      { intros ->. apply Hnotin. eapply nth_error_In. exact Hn. }
      rewrite upd_other by exact Hne. f_equal. lia.
Qed.

Lemma assign_ranks_ext (top : list ref) :
  forall (h g : store F) (i : Z),
    (forall r, h r = g r) ->
    forall r, assign_ranks h i top r = assign_ranks g i top r.
Proof.
  induction top as [|a top IH]; intros h g i Hhg r; [apply Hhg|].
  simpl. apply IH. intros r'. unfold upd.
  destruct (Nat.eqb r' a); [rewrite Hhg; reflexivity | apply Hhg].
Qed.

(** Scoring and ranking a record that is already scored [s] and ranked
    [j] writes back what is there. *)
Lemma annotated_again (d : KeywordData.t F) (s : F) (j : Z) :
  annotated (set_rank j (annotated d s)) s = set_rank j (annotated d s).
Proof. destruct d. reflexivity. Qed.

Lemma set_rank_again (d : KeywordData.t F) (j : Z) :
  set_rank j (set_rank j d) = set_rank j d.
Proof. destruct d. reflexivity. Qed.

Lemma annotated_raw (d : KeywordData.t F) (s : F) : same_raw (annotated d s) d.
Proof. repeat split. Qed.

End AnyArithmetic.

(** The shape of a run on distinct records that all score. *)
Lemma run_shape
  (self : KeywordScorer.t float) (h : store float) (l : list ref) (n : Z) :
  NoDup l ->
  (forall r, In r l ->
     exists s, calculate_opportunity_score self (h r) = Py.Ok s /\
               is_nan s = false) ->
  exists (h1 : store float) (k : ref -> float),
    (forall r, In r l ->
       calculate_opportunity_score self (h r) = Py.Ok (k r) /\
       is_nan (k r) = false /\ h1 r = annotated (h r) (k r)) /\
    (forall r, ~ In r l -> h1 r = h r) /\
    rank_keywords self h l n
    = Py.Ok
        (assign_ranks h1 1
           (Py.slice_to
              (map snd (sort_desc PrimFloat.ltb (map (fun r => (k r, r)) l))) n),
         Py.slice_to
           (map snd (sort_desc PrimFloat.ltb (map (fun r => (k r, r)) l))) n).
Proof.
  intros Hnd Hsc.
  destruct (score_all_spec self l h Hnd) as (h1 & Hrun & Hin & Hout).
  { intros r Hr. destruct (Hsc r Hr) as (s & Hs & _). exists s. exact Hs. }
  exists h1, (fun r => Py.get (opportunity_score (h1 r)) PrimFloat.nan).
  assert (Hk : forall r, In r l ->
                 calculate_opportunity_score self (h r)
                 = Py.Ok (Py.get (opportunity_score (h1 r)) PrimFloat.nan) /\
                 is_nan (Py.get (opportunity_score (h1 r)) PrimFloat.nan) = false /\
                 h1 r = annotated (h r) (Py.get (opportunity_score (h1 r)) PrimFloat.nan)).
  { intros r Hr. destruct (Hin r Hr) as (s & Hs & Hr1).
    destruct (Hsc r Hr) as (s' & Hs' & Hnan).
    rewrite Hs in Hs'. injection Hs' as <-.
    rewrite Hr1. simpl. rewrite <- Hr1. auto. }
  split; [exact Hk|]. split; [exact Hout|].
  unfold rank_keywords. rewrite Hrun. simpl Py.bind. unfold sorted_reverse.
  rewrite (decorate_keys h1 (fun r => Py.get (opportunity_score (h1 r)) PrimFloat.nan)).
  - reflexivity.
  - intros r Hr. destruct (Hk r Hr) as (_ & _ & Hr1).
    rewrite Hr1 at 1. reflexivity.
Qed.

(** X7.  Ranking is idempotent on binary64: on a pool of distinct
    records that all score to a number and with [top_n >= 0], ranking
    the list the ranker returned once more, in the store it left,
    returns the same list in the same order and leaves every record as
    it was. *)
Theorem rank_keywords_idempotent
  (self : KeywordScorer.t float) (h : store float)
  (keywords_data : list ref) (top_n : Z) :
  0 <= top_n ->
  NoDup keywords_data ->
  (forall r, In r keywords_data ->
     exists s, calculate_opportunity_score self (h r) = Py.Ok s /\
               is_nan s = false) ->
  exists (h' : store float) (ranked : list ref),
    rank_keywords self h keywords_data top_n = Py.Ok (h', ranked) /\
    exists h'' : store float,
      rank_keywords self h' ranked top_n = Py.Ok (h'', ranked) /\
      forall r, h'' r = h' r.
Proof.
  intros Htop Hnd Hsc.
  destruct (run_shape self h keywords_data top_n Hnd Hsc)
    as (h1 & k & Hin & Hout & Hrun).
  set (dl := map (fun r => (k r, r)) keywords_data) in *.
  set (sl := sort_desc PrimFloat.ltb dl) in *.
  assert (Hslice : forall (A : Type) (l : list A),
            Py.slice_to l top_n = firstn (Z.to_nat top_n) l).
  { intros A l. unfold Py.slice_to.
    destruct (Z.leb_spec 0 top_n); [reflexivity | lia]. }
  rewrite !Hslice in Hrun.
  set (m := Z.to_nat top_n) in *.
  set (ranked := firstn m (map snd sl)) in *.
  set (h' := assign_ranks h1 1 ranked) in *.
  (* the sorted list *)
  assert (Hperm : Permutation sl dl) by apply SortFacts.sort_desc_perm.
  assert (Hdl : forall p, In p dl -> fst p = k (snd p) /\ In (snd p) keywords_data).
  { intros p Hp. unfold dl in Hp. apply in_map_iff in Hp as (r & <- & Hr). auto. }
  assert (Hsl : forall p, In p sl -> fst p = k (snd p) /\ In (snd p) keywords_data).
  { intros p Hp. apply Hdl. eapply Permutation_in; eassumption. }
  assert (Hsorted : Permutation (map snd sl) keywords_data).
  { apply Permutation_trans with (map snd dl).
    - apply Permutation_map. exact Hperm.
    - unfold dl. rewrite map_map. simpl. rewrite map_id. apply Permutation_refl. }
  assert (Hranked_in : forall r, In r ranked -> In r keywords_data).
  { intros r Hr. apply (Permutation_in _ Hsorted).
    apply (RankingFrame.firstn_incl m). exact Hr. }
  assert (Hndr : NoDup ranked).
  { unfold ranked. apply Ranking.NoDup_firstn.
    apply (Permutation_NoDup (Permutation_sym Hsorted)). exact Hnd. }
  assert (Hss : StronglySorted
                  (fun p q : float * ref => PrimFloat.ltb (fst p) (fst q) = false) sl).
  { assert (Hge : StronglySorted
                    (fun p q : float * ref => PrimFloat.leb (fst q) (fst p) = true) sl).
    { apply (SortFacts.sort_desc_sorted PrimFloat.ltb
               (fun x y => PrimFloat.leb y x = true)
               (fun x => is_nan x = false)).
      - intros x y Hx Hy. apply Binary64Order.not_ltb_leb; assumption.
      - intros x y _ _. apply Binary64Order.ltb_leb.
      - intros x y z Hxy Hyz. eapply Binary64Order.leb_trans; eassumption.
      - apply Forall_forall. intros p Hp. destruct (Hdl p Hp) as [-> Hpin].
        apply Hin. exact Hpin. }
    clear -Hge. induction Hge as [|p l Hs IH Hp]; constructor.
    - exact IH.
    - eapply Forall_impl; [|exact Hp]. intros q. apply leb_not_ltb. }
  assert (Hredecorate : map (fun r => (k r, r)) ranked = firstn m sl).
  { unfold ranked. rewrite <- firstn_map, map_map. f_equal.
    rewrite <- (map_id sl) at 2. apply map_ext_in.
    intros [x r] Hp. destruct (Hsl _ Hp) as [E _]. simpl in *. rewrite E. reflexivity. }
  (* the records after the first run *)
  assert (Hh' : forall r i, nth_error ranked i = Some r ->
                  h' r = set_rank (1 + Z.of_nat i) (annotated (h r) (k r))).
  { intros r i Hi. unfold h'. rewrite (assign_ranks_at ranked h1 1 i r Hndr Hi).
    destruct (Hin r (Hranked_in r (nth_error_In _ _ Hi))) as (_ & _ & ->).
    reflexivity. }
  assert (Hsc' : forall r, In r ranked ->
                   calculate_opportunity_score self (h' r) = Py.Ok (k r) /\
                   is_nan (k r) = false).
  { intros r Hr. destruct (Hin r (Hranked_in r Hr)) as (Hs & Hnan & _).
    split; [|exact Hnan]. rewrite <- Hs.
    destruct (In_nth_error _ _ Hr) as [i Hi]. rewrite (Hh' r i Hi).
    apply ScoreRange.score_depends_on_metrics; reflexivity. }
  (* the second run *)
  destruct (run_shape self h' ranked top_n Hndr) as (h2 & k' & Hin' & Hout' & Hrun').
  { intros r Hr. exists (k r). apply Hsc'. exact Hr. }
  rewrite !Hslice in Hrun'. fold m in Hrun'.
  assert (Hk' : forall r, In r ranked -> k' r = k r).
  { intros r Hr. destruct (Hin' r Hr) as (Hs' & _).
    destruct (Hsc' r Hr) as (Hs & _). rewrite Hs in Hs'.
    injection Hs' as ->. reflexivity. }
  assert (Hh2 : forall r, h2 r = h' r).
  { intros r. destruct (in_dec Nat.eq_dec r ranked) as [Hr | Hr].
    - destruct (Hin' r Hr) as (_ & _ & ->). rewrite (Hk' r Hr).
      destruct (In_nth_error _ _ Hr) as [i Hi]. rewrite (Hh' r i Hi).
      apply annotated_again.
    - apply Hout'. exact Hr. }
  assert (Hsame : firstn m
                    (map snd (sort_desc PrimFloat.ltb (map (fun r => (k' r, r)) ranked)))
                  = ranked).
  { rewrite (map_ext_in (fun r => (k' r, r)) (fun r => (k r, r)) ranked)
      by (intros r Hr; rewrite (Hk' r Hr); reflexivity).
    rewrite Hredecorate.
    rewrite (sort_desc_fixed PrimFloat.ltb (firstn m sl))
      by (apply StronglySorted_firstn; exact Hss).
    rewrite <- firstn_map. fold ranked. unfold ranked at 1.
    rewrite firstn_firstn, Nat.min_id. reflexivity. }
  rewrite Hsame in Hrun'.
  exists h', ranked. split; [exact Hrun|].
  exists (assign_ranks h2 1 ranked). split; [exact Hrun'|].
  intros r. rewrite (assign_ranks_ext ranked h2 h' 1 Hh2 r).
  destruct (in_dec Nat.eq_dec r ranked) as [Hr | Hr].
  - destruct (In_nth_error _ _ Hr) as [i Hi].
    rewrite (assign_ranks_at ranked h' 1 i r Hndr Hi), (Hh' r i Hi).
    apply set_rank_again.
  - apply assign_ranks_other. exact Hr.
Qed.

Lemma rank_keywords_idempotent_witness :
  exists (h' : store float) (ranked : list ref),
    rank_keywords Sample.scorer Sample.pool [0; 1; 2; 3]%nat 3 = Py.Ok (h', ranked) /\
    exists h'' : store float,
      rank_keywords Sample.scorer h' ranked 3 = Py.Ok (h'', ranked) /\
      forall r, h'' r = h' r.
Proof.
  apply (rank_keywords_idempotent Sample.scorer Sample.pool [0; 1; 2; 3]%nat 3).
  - lia.
  - repeat constructor; simpl; intuition discriminate.
  - intros r [<- | [<- | [<- | [<- | []]]]];
      eexists; split; vm_compute; reflexivity.
Defined.

End Rerank.

(** ** The score as volume and relevance grow (exact arithmetic) *)

Module ScoreGrowth.

Import KeywordData KeywordScorer Spec SpecMore Exact ExactFacts.
#[local] Open Scope R_scope.






End ScoreGrowth.

(** ** The reasoning text against the classifier *)

Module ReasoningFacts.

Import KeywordData KeywordScorer RankingPotential Spec SpecMore Reasoning Binary64.

(** The formats on a few integers, as Python prints them. *)
Lemma formats :
  map format_thousands [0; 5; -5; 999; 1000; -1000; 2400; 1234567]
  = ["0"; "5"; "-5"; "999"; "1,000"; "-1,000"; "2,400"; "1,234,567"] /\
  map py_str [0; 7; -12; 1000] = ["0"; "7"; "-12"; "1000"].
Proof. split; vm_compute; reflexivity. Qed.

(** The sample of the source file: volume 2400, competition 22,
    relevance 0.92, one big brand, no SERP feature. *)
Lemma reasoning_internship :
  generate_reasoning Sample.internship
    (SerpAnalysis.mk (Some 1) (Some false) (Some false) None None)
  = "remote international internship programs: moderate search volume (2,400/month), low competition, only 1 major brand(s) in top 10, highly relevant to seed keyword".
Proof. vm_compute. reflexivity. Qed.

(** X9.  For a record that carries a competition score, the competition
    clause of the reasoning (its second clause) and the difficulty
    category of the ranking potential agree, in every float arithmetic:
    "low competition" goes with "Low", "moderate competition" with
    "Medium-Low", and "high competition" with "Medium", "Medium-High"
    or "High". *)
Theorem reasoning_matches_category
  (F : Type) (ops : Float F) (d : KeywordData.t F) (serp : SerpAnalysis.t) (c : Z) :
  competition_score d = Some c ->
  let category := difficulty_category (estimate_ranking_potential d) in
  let clause := nth_error (reasons d serp) 1 in
  (clause = Some "low competition" <-> category = "Low") /\
  (clause = Some "moderate competition" <-> category = "Medium-Low") /\
  (clause = Some "high competition" <->
   category = "Medium" \/ category = "Medium-High" \/ category = "High").
Proof.
  intros Hc category clause. unfold category, clause.
  rewrite Consistency.category_bands. unfold reasons.
  rewrite Hc. cbn [Py.get nth_error app].
  destruct (Z.ltb_spec c 30), (Z.ltb_spec c 50), (Z.ltb_spec c 70),
    (Z.ltb_spec c 85); try lia;
    repeat split; intros E;
    try reflexivity; try discriminate E;
    try (destruct E as [E | [E | E]]; discriminate E);
    auto.
Qed.

Lemma reasoning_matches_category_witness :
  nth_error
    (reasons Sample.internship
       (SerpAnalysis.mk (Some 1) (Some false) (Some false) None None)) 1
  = Some "low competition".
Proof.
  apply (proj1 (reasoning_matches_category float binary64 Sample.internship
                  (SerpAnalysis.mk (Some 1) (Some false) (Some false) None None)
                  22 eq_refl)).
  vm_compute. reflexivity.
Defined.

(** X10.  The reasoning and the scorer fill a missing field with
    different defaults.  For a record without a competition score the
    reasoning says "low competition" (it reads 0) while the ranking
    potential puts it in the category "Medium" (it reads 50); for a
    record without a volume the reasoning reports 0 searches a month
    while the score is the score at volume 1000. *)
Theorem reasoning_defaults_differ
  (F : Type) (ops : Float F) (self : KeywordScorer.t F)
  (d : KeywordData.t F) (serp : SerpAnalysis.t) :
  (competition_score d = None ->
   nth_error (reasons d serp) 1 = Some "low competition" /\
   difficulty_category (estimate_ranking_potential d) = "Medium") /\
  (estimated_volume d = None ->
   nth_error (reasons d serp) 0 = Some "low search volume (0/month)" /\
   calculate_opportunity_score self d
   = calculate_opportunity_score self (with_volume 1000 d)).
Proof.
  split.
  - intros Hc. split.
    + unfold reasons. rewrite Hc. reflexivity.
    + rewrite Consistency.category_bands, Hc. reflexivity.
  - intros Hv. split.
    + unfold reasons. rewrite Hv. reflexivity.
    + unfold calculate_opportunity_score. rewrite Hv. reflexivity.
Qed.

Lemma reasoning_defaults_differ_witness :
  nth_error (reasons (F := float) KeywordData.empty
               (SerpAnalysis.mk None None None None None)) 1
  = Some "low competition" /\
  difficulty_category (estimate_ranking_potential (F := float) KeywordData.empty)
  = "Medium".
Proof.
  apply (proj1 (reasoning_defaults_differ float binary64 Sample.scorer
                  KeywordData.empty (SerpAnalysis.mk None None None None None))).
  reflexivity.
Defined.

End ReasoningFacts.

(** ** The relevance scores of the Groq client *)

Module Relevance.

Import GroqClient Binary64.

(** [max(0.0, min(1.0, x))] lands in [0,1] for every binary64 [x]. *)
Lemma clamp_unit (x : float) :
  let y := py_max (lit 0) (py_min (lit 1) x) in
  PrimFloat.leb 0 y = true /\ PrimFloat.leb y 1 = true.
Proof.
  unfold py_max, py_min.
  change (lit 0) with (literal 0). change (lit 1) with (literal 1).
  replace (literal 0) with 0%float by (vm_compute; reflexivity).
  replace (literal 1) with 1%float by (vm_compute; reflexivity).
  cbn [flt binary64].
  destruct (PrimFloat.ltb x 1) eqn:E1.
  - destruct (PrimFloat.ltb 0 x) eqn:E0.
    + split; apply Binary64Order.ltb_leb; assumption.
    + split; vm_compute; reflexivity.
  - replace (PrimFloat.ltb 0 1) with true by (vm_compute; reflexivity).
    split; vm_compute; reflexivity.
Qed.

Lemma clamp_not_below_one (x : float) :
  PrimFloat.ltb x 1 = false -> py_max (lit 0) (py_min (lit 1) x) = 1%float.
Proof.
  intros E. unfold py_max, py_min.
  change (lit 0) with (literal 0). change (lit 1) with (literal 1).
  replace (literal 0) with 0%float by (vm_compute; reflexivity).
  replace (literal 1) with 1%float by (vm_compute; reflexivity).
  cbn [flt binary64]. rewrite E.
  replace (PrimFloat.ltb 0 1) with true by (vm_compute; reflexivity).
  reflexivity.
Qed.

(** X11.  On binary64 every relevance score the client hands out lies
    in [0,1], whatever the model answered: the single score for every
    answer (a number, a text that is no number, a failed call), and
    every entry of the batch dictionary, which has an entry for each
    candidate.  An answer that reads as NaN or as +infinity is scored
    1.0, the highest relevance. *)
Theorem relevance_in_unit_interval :
  (forall answer : reply float,
      PrimFloat.leb 0 (calculate_relevance_score answer) = true /\
      PrimFloat.leb (calculate_relevance_score answer) 1 = true) /\
  (forall (batch : option (str -> option (option float)))
          (single : str -> reply float) (candidate_keywords : list str) (kw : str),
      (In kw candidate_keywords ->
       exists x, batch_calculate_relevance batch single candidate_keywords kw = Some x) /\
      (forall x,
          batch_calculate_relevance batch single candidate_keywords kw = Some x ->
          PrimFloat.leb 0 x = true /\ PrimFloat.leb x 1 = true)) /\
  calculate_relevance_score (Parsed nan) = 1%float /\
  calculate_relevance_score (Parsed infinity) = 1%float.
Proof.
  assert (Hsingle : forall answer : reply float,
             PrimFloat.leb 0 (calculate_relevance_score answer) = true /\
             PrimFloat.leb (calculate_relevance_score answer) 1 = true).
  { intros [score | |]; simpl.
    - apply clamp_unit.
    - split; vm_compute; reflexivity.
    - split; vm_compute; reflexivity. }
  split; [exact Hsingle|]. split; [|split; vm_compute; reflexivity].
  intros batch single candidate_keywords kw.
  assert (Hmem : In kw candidate_keywords ->
                 existsb (str_eqb kw) candidate_keywords = true).
  { intros Hin. apply existsb_exists. exists kw. split; [exact Hin|].
    unfold str_eqb. destruct (list_eq_dec N.eq_dec kw kw); congruence. }
  unfold batch_calculate_relevance.
  destruct batch as [scores|];
    [destruct (forallb _ candidate_keywords)|]; split;
    try (intros Hin; rewrite (Hmem Hin); eexists; reflexivity);
    intros x; destruct (existsb (str_eqb kw) candidate_keywords);
    try discriminate; intros Hx; injection Hx as <-;
    try apply Hsingle; apply clamp_unit.
Qed.

Lemma relevance_in_unit_interval_witness :
  let candidates := [str_lit "global internship"; str_lit "internship abroad"] in
  let single := fun _ : str => Parsed 1.7%float in
  In (str_lit "internship abroad") candidates /\
  batch_calculate_relevance None single candidates (str_lit "internship abroad")
  = Some 1%float /\
  PrimFloat.leb 0 1 = true /\ PrimFloat.leb 1 1 = true.
Proof.
  intros candidates single.
  assert (Hin : In (str_lit "internship abroad") candidates)
    by (right; left; reflexivity).
  assert (E : batch_calculate_relevance None single candidates
                (str_lit "internship abroad") = Some 1%float)
    by (vm_compute; reflexivity).
  split; [exact Hin|]. split; [exact E|].
  exact (proj2 (proj1 (proj2 relevance_in_unit_interval) None single candidates
                  (str_lit "internship abroad")) 1%float E).
Defined.

End Relevance.

(** ** The volume estimate of the trends client *)

Module VolumeEstimate.

Import TrendsClient Binary64 Binary64Int.

Section Words.
Variable isspace : N -> bool.

(** White space between two texts separates their words. *)
Lemma split_from_space (k k' : str) (sp : N) :
  isspace sp = true ->
  forall word,
    List.length (split_from isspace word (k ++ sp :: k')%list)
    = (List.length (split_from isspace word k)
       + List.length (split_from isspace [] k'))%nat.
Proof.
  intros Hsp. induction k as [|c k IH]; intros word; simpl.
  - rewrite Hsp. destruct word; reflexivity.
  - destruct (isspace c).
    + destruct word; simpl; rewrite IH; reflexivity.
    + apply IH.
Qed.

Lemma split_blank (s : str) : forallb isspace s = true -> split isspace s = [].
Proof.
  unfold split. induction s as [|c s IH]; simpl; [reflexivity|].
  intros Hs. apply andb_true_iff in Hs as [Hc Hs]. rewrite Hc. apply IH. exact Hs.
Qed.

(** X12.  The fallback estimate by keyword length takes one of the four
    values 5000, 2000, 1000, 500, whatever the keyword; an empty or
    blank keyword gets the short-tail value 5000; and text added after
    white space never raises the estimate. *)
Theorem estimate_by_length_steps (keyword more : str) (sp : N) :
  In (_estimate_by_length isspace keyword) [5000; 2000; 1000; 500] /\
  (forallb isspace keyword = true -> _estimate_by_length isspace keyword = 5000) /\
  (isspace sp = true ->
   _estimate_by_length isspace (keyword ++ sp :: more)%list
   <= _estimate_by_length isspace keyword).
Proof.
  split; [|split].
  - unfold _estimate_by_length.
    destruct (_ <=? 2); [left; reflexivity|].
    destruct (_ =? 3); [right; left; reflexivity|].
    destruct (_ =? 4); simpl; auto.
  - intros Hb. unfold _estimate_by_length. rewrite (split_blank _ Hb). reflexivity.
  - intros Hsp. unfold _estimate_by_length, split.
    rewrite (split_from_space keyword more sp Hsp []).
    set (a := List.length (split_from isspace [] keyword)).
    set (b := List.length (split_from isspace [] more)).
    destruct (Z.leb_spec (Z.of_nat (a + b)) 2), (Z.leb_spec (Z.of_nat a) 2),
      (Z.eqb_spec (Z.of_nat (a + b)) 3), (Z.eqb_spec (Z.of_nat a) 3),
      (Z.eqb_spec (Z.of_nat (a + b)) 4), (Z.eqb_spec (Z.of_nat a) 4); lia.
Qed.

End Words.

(** White space for the examples: the ASCII space. *)
Lemma estimate_by_length_steps_witness :
  forallb (N.eqb 32) (str_lit "   ") = true /\
  _estimate_by_length (N.eqb 32) (str_lit "   ") = 5000 /\
  N.eqb 32 32 = true /\
  _estimate_by_length (N.eqb 32)
    (str_lit "paid summer internship" ++ 32%N :: str_lit "in berlin")%list
  <= _estimate_by_length (N.eqb 32) (str_lit "paid summer internship").
Proof.
  pose proof (estimate_by_length_steps (N.eqb 32) (str_lit "   ") [] 32%N)
    as (_ & Hblank & _).
  pose proof (estimate_by_length_steps (N.eqb 32) (str_lit "paid summer internship")
                (str_lit "in berlin") 32%N) as (_ & _ & Hmore).
  split; [reflexivity|]. split; [apply Hblank; reflexivity|].
  split; [reflexivity|]. apply Hmore. reflexivity.
Defined.

(** X13.  The volume estimate is at least 10 for every input and every
    float arithmetic: whatever interest the service reports and
    whatever the base volume, with trends enabled or not, an exception
    of the computation is replaced by the length estimate and a small
    or negative result by 10. *)
Theorem estimate_at_least_ten
  (F : Type) (ops : Float F) (int_ops : FloatInt F) (isspace : N -> bool)
  (enabled : bool) (average_interest : Z) (keyword : str) (base_volume : Z) :
  10 <= estimate_search_volume isspace enabled average_interest keyword base_volume.
Proof.
  assert (Hlen : 10 <= _estimate_by_length isspace keyword).
  { destruct (estimate_by_length_steps isspace keyword [] 0%N)
      as ([E | [E | [E | [E | []]]]] & _); rewrite <- E; lia. }
  unfold estimate_search_volume.
  destruct (negb enabled); [exact Hlen|].
  destruct (scaled_volume average_interest base_volume); [lia | exact Hlen].
Qed.

(** The estimates for the interests 0 to 100 at base volume 1000. *)
Lemma scaled_volume_table :
  forallb
    (fun i =>
       match scaled_volume (F := float) (Z.of_nat i) 1000 with
       | Py.Ok v => v =? (if Z.of_nat i =? 0 then 100 else 20 * Z.of_nat i)
       | Py.Raise _ => false
       end)
    (seq 0 101)
  = true.
Proof. vm_compute. reflexivity. Qed.

(** X14.  On binary64, with trends enabled and the default base volume
    1000, an average interest [i] between 1 and 100 gives exactly
    [20 * i] and the interest 0 gives 100.  So the estimate never
    exceeds 2000, twice the base volume, and it is not monotone in the
    interest: no interest at all is estimated higher than the interests
    1 to 4. *)
Theorem estimate_from_interest
  (isspace : N -> bool) (keyword : str) (average_interest : Z) :
  0 <= average_interest <= 100 ->
  estimate_search_volume isspace true average_interest keyword 1000
  = (if average_interest =? 0 then 100 else 20 * average_interest) /\
  estimate_search_volume isspace true average_interest keyword 1000 <= 2000 /\
  (1 <= average_interest <= 4 ->
   estimate_search_volume isspace true average_interest keyword 1000
   < estimate_search_volume isspace true 0 keyword 1000).
Proof.
  intros Hi.
  assert (Htable : forall j, 0 <= j <= 100 ->
            estimate_search_volume isspace true j keyword 1000
            = if j =? 0 then 100 else 20 * j).
  { intros j Hj.
    pose proof scaled_volume_table as Ht.
    rewrite forallb_forall in Ht.
    specialize (Ht (Z.to_nat j)). rewrite Z2Nat.id in Ht by lia.
    unfold estimate_search_volume. cbn [negb].
    destruct (scaled_volume j 1000) as [v|e].
    - assert (Hv : (v =? (if j =? 0 then 100 else 20 * j)) = true).
      { apply Ht. apply in_seq. lia. }
      apply Z.eqb_eq in Hv. rewrite Hv.
      destruct (Z.eqb_spec j 0); lia.
    - assert (Hf : false = true); [|discriminate Hf].
      apply Ht. apply in_seq. lia. }
  split; [apply Htable; exact Hi|]. split.
  - rewrite (Htable _ Hi). destruct (Z.eqb_spec average_interest 0); lia.
  - intros Hlow. rewrite (Htable _ Hi), (Htable 0) by lia.
    change (0 =? 0) with true. cbv iota.
    destruct (Z.eqb_spec average_interest 0); lia.
Qed.

Lemma estimate_from_interest_witness :
  estimate_search_volume (N.eqb 32) true 3 (str_lit "global internship") 1000 = 60 /\
  estimate_search_volume (N.eqb 32) true 0 (str_lit "global internship") 1000 = 100.
Proof.
  split.
  - apply (proj1 (estimate_from_interest (N.eqb 32) (str_lit "global internship") 3
                    ltac:(lia))).
  - apply (proj1 (estimate_from_interest (N.eqb 32) (str_lit "global internship") 0
                    ltac:(lia))).
Defined.

End VolumeEstimate.

(** ** The competition analysis of the SERP client *)

Module Competition.

Import SerpClient SpecSerp Binary64.

Lemma upto_in (n : nat) (z : Z) : 0 <= z <= Z.of_nat n -> In z (upto n).
Proof.
  intros Hz. unfold upto. apply in_map_iff. exists (Z.to_nat z).
  split; [lia|]. apply in_seq. lia.
Qed.

Lemma band_in (c : Z) : In (band c) bands.
Proof.
  unfold band, bands.
  repeat match goal with |- context [?a <? ?b] => destruct (a <? b) end;
    simpl; tauto.
Qed.

Lemma band_mono (c c' : Z) : c <= c' -> band c <= band c'.
Proof.
  unfold band. intros Hc.
  repeat match goal with
         | |- context [?a <? ?b] => destruct (Z.ltb_spec a b)
         end; lia.
Qed.

(** The estimate reads three keys, and the competition score only
    through its band. *)
Lemma estimate_reads (a : Analysis.t float) (c b f : Z) :
  Analysis.competition_score a = Some c ->
  Analysis.big_brands_count a = Some b ->
  Analysis.serp_features_count a = Some f ->
  _estimate_first_page_probability a
  = _estimate_first_page_probability (counts (band c) b f).
Proof.
  intros Hc Hb Hf. unfold _estimate_first_page_probability, counts, band.
  rewrite Hc, Hb, Hf. cbn [item Py.bind Analysis.competition_score
    Analysis.big_brands_count Analysis.serp_features_count].
  destruct (Z.ltb_spec c 20); [reflexivity|].
  destruct (Z.ltb_spec c 40); [reflexivity|].
  destruct (Z.ltb_spec c 60); [reflexivity|].
  destruct (Z.ltb_spec c 80); reflexivity.
Qed.

(** The estimate on the whole grid of bands, brand counts up to 10
    and feature counts up to 3, by evaluation. *)
Definition in_range (r : Py.result float) : bool :=
  match r with
  | Py.Ok p => PrimFloat.leb (lit 0.05) p && PrimFloat.leb p (lit 0.85)
  | Py.Raise _ => false
  end.

Definition not_above (r r' : Py.result float) : bool :=
  match r, r' with
  | Py.Ok p, Py.Ok p' => PrimFloat.leb p p'
  | _, _ => false
  end.

Definition grid : list (Z * Z * Z) :=
  list_prod (list_prod bands (upto 10)) (upto 3).

Definition estimate_at (x : Z * Z * Z) : Py.result float :=
  let '(c, b, f) := x in _estimate_first_page_probability (counts c b f).

Definition le3 (x y : Z * Z * Z) : bool :=
  let '(c, b, f) := x in
  let '(c', b', f') := y in
  (c <=? c') && (b <=? b') && (f <=? f').

Lemma grid_in (c b f : Z) :
  0 <= b <= 10 -> 0 <= f <= 3 -> In (band c, b, f) grid.
Proof.
  intros Hb Hf. unfold grid. apply in_prod; [apply in_prod|].
  - apply band_in.
  - apply (upto_in 10). lia.
  - apply (upto_in 3). lia.
Qed.

Lemma grid_range : forallb (fun x => in_range (estimate_at x)) grid = true.
Proof. vm_compute. reflexivity. Qed.

Lemma grid_monotone :
  forallb (fun x =>
    forallb (fun y => implb (le3 x y) (not_above (estimate_at y) (estimate_at x)))
      grid) grid = true.
Proof. vm_compute. reflexivity. Qed.

Lemma estimate_range (a : Analysis.t float) (c b f : Z) :
  Analysis.competition_score a = Some c ->
  Analysis.big_brands_count a = Some b ->
  Analysis.serp_features_count a = Some f ->
  0 <= b <= 10 -> 0 <= f <= 3 ->
  exists p, _estimate_first_page_probability a = Py.Ok p /\
            PrimFloat.leb (lit 0.05) p = true /\ PrimFloat.leb p (lit 0.85) = true.
Proof.
  intros Hc Hb Hf Rb Rf. rewrite (estimate_reads a c b f Hc Hb Hf).
  pose proof (proj1 (forallb_forall _ _) grid_range _ (grid_in c b f Rb Rf)) as G.
  unfold estimate_at in G.
  destruct (_estimate_first_page_probability (counts (band c) b f)) as [p|e];
    [|discriminate G].
  exists p. split; [reflexivity|]. apply andb_true_iff. exact G.
Qed.

(** X15.  On binary64, for an analysis with at most 10 big brands and
    at most 3 SERP features (what the top-10 analysis can count), the
    first-page probability is returned and lies between 0.05 and 0.85,
    whatever the competition score; and it never goes up when the
    competition score, the number of big brands or the number of SERP
    features goes up. *)
Theorem first_page_probability_range (a a' : Analysis.t float)
    (c b f c' b' f' : Z) :
  Analysis.competition_score a = Some c ->
  Analysis.big_brands_count a = Some b ->
  Analysis.serp_features_count a = Some f ->
  Analysis.competition_score a' = Some c' ->
  Analysis.big_brands_count a' = Some b' ->
  Analysis.serp_features_count a' = Some f' ->
  0 <= b <= b' -> b' <= 10 -> 0 <= f <= f' -> f' <= 3 -> c <= c' ->
  exists p p',
    _estimate_first_page_probability a = Py.Ok p /\
    _estimate_first_page_probability a' = Py.Ok p' /\
    PrimFloat.leb (lit 0.05) p' = true /\
    PrimFloat.leb p' p = true /\
    PrimFloat.leb p (lit 0.85) = true.
Proof.
  intros Hc Hb Hf Hc' Hb' Hf' Rb Rb' Rf Rf' Rc.
  destruct (estimate_range a c b f Hc Hb Hf) as (p & Hp & Hlo & Hhi); [lia|lia|].
  destruct (estimate_range a' c' b' f' Hc' Hb' Hf') as (p' & Hp' & Hlo' & Hhi');
    [lia|lia|].
  exists p, p'. repeat split; try assumption.
  rewrite (estimate_reads a c b f Hc Hb Hf) in Hp.
  rewrite (estimate_reads a' c' b' f' Hc' Hb' Hf') in Hp'.
  assert (Gx : In (band c, b, f) grid) by (apply grid_in; lia).
  assert (Gy : In (band c', b', f') grid) by (apply grid_in; lia).
  pose proof (proj1 (forallb_forall _ _)
                (proj1 (forallb_forall _ _) grid_monotone _ Gx) _ Gy) as G.
  unfold estimate_at, le3 in G. rewrite Hp, Hp' in G.
  pose proof (band_mono c c' Rc) as Hband.
  replace (band c <=? band c') with true in G by (symmetry; apply Z.leb_le; lia).
  replace (b <=? b') with true in G by (symmetry; apply Z.leb_le; lia).
  replace (f <=? f') with true in G by (symmetry; apply Z.leb_le; lia).
  exact G.
Qed.

Lemma first_page_probability_range_witness :
  exists p p',
    _estimate_first_page_probability (counts 35 1 0) = Py.Ok p /\
    _estimate_first_page_probability (counts 72 6 2) = Py.Ok p' /\
    PrimFloat.leb (lit 0.05) p' = true /\
    PrimFloat.leb p' p = true /\
    PrimFloat.leb p (lit 0.85) = true.
Proof.
  apply (first_page_probability_range (counts 35 1 0) (counts 72 6 2)
           35 1 0 72 6 2); try reflexivity; lia.
Defined.

Lemma big_brands_bound (lower : str -> str) (l : list OrganicResult.t) :
  let organic_results := firstn 10 l in
  let domains :=
    map (fun result =>
           Py.get (OrganicResult.domain result)
             (Py.get (OrganicResult.displayed_link result) []))
      organic_results in
  (List.length (filter (is_big_brand lower) domains) <= List.length organic_results
   /\ List.length organic_results <= 10)%nat.
Proof.
  cbv zeta. split.
  - rewrite <- (length_map (fun result =>
           Py.get (OrganicResult.domain result)
             (Py.get (OrganicResult.displayed_link result) [])) (firstn 10 l)).
    apply filter_length_le.
  - rewrite length_firstn. lia.
Qed.

(** X16.  On binary64 the competition analysis always carries a
    competition score between 0 and 100 and a first-page probability
    between 0.05 and 0.85.  When the search failed it is the fallback:
    the error key, the score 50 and the probability 0.3, and no
    counts.  When the search gave results the analysis has no error
    key; it counts at most 10 organic results, among them the big
    brands, and at most 3 SERP features, and its competition score is
    at least ten times the brands counted (up to 5) plus ten per
    feature. *)
Theorem analysis_within_bounds (lower : str -> str) (keyword : str)
    (response : option SearchResults.t) :
  let a := analyze_competition lower keyword response in
  Analysis.keyword a = keyword /\
  (exists c p,
      Analysis.competition_score a = Some c /\ 0 <= c <= 100 /\
      Analysis.first_page_probability a = Some p /\
      PrimFloat.leb (lit 0.05) p = true /\ PrimFloat.leb p (lit 0.85) = true) /\
  match response with
  | None =>
      Analysis.error a = true /\
      Analysis.competition_score a = Some 50 /\
      Analysis.first_page_probability a = Some (lit 0.3) /\
      Analysis.big_brands_count a = None /\
      Analysis.total_results a = None
  | Some results =>
      Analysis.error a = false /\
      exists n b f c,
        Analysis.organic_results_count a = Some n /\
        Analysis.big_brands_count a = Some b /\
        Analysis.serp_features_count a = Some f /\
        Analysis.competition_score a = Some c /\
        0 <= b <= n /\ n <= 10 /\ 0 <= f <= 3 /\
        Z.min (10 * b) 50 + 10 * f <= c
  end.
Proof.
  destruct response as [results|]; cbv zeta.
  2:{ cbn. split; [reflexivity|]. split.
      - exists 50, (lit 0.3). repeat split; try lia; vm_compute; reflexivity.
      - repeat split. }
  unfold analyze_competition.
  set (organic := firstn 10 (Py.get (SearchResults.organic_results results) [])).
  set (doms := map _ organic).
  set (b := Z.of_nat (List.length (filter (is_big_brand lower) doms))).
  set (fs := SearchResults.featured_snippet results || SearchResults.answer_box results).
  set (kg := SearchResults.knowledge_graph results).
  set (ad := SearchResults.ads results || SearchResults.top_ads results).
  set (f := (if fs then 1 else 0) + (if kg then 1 else 0) + (if ad then 1 else 0)).
  set (total := match SearchResults.search_information results with
                | Some (Some n) => n
                | _ => 0
                end).
  set (c := Z.min _ 100).
  set (analysis := Analysis.mk float keyword false _ _ _ _ _ _ _ _ _ _).
  pose proof (big_brands_bound lower
                (Py.get (SearchResults.organic_results results) [])) as Hcount.
  cbv zeta in Hcount. fold organic in Hcount. fold doms in Hcount.
  destruct Hcount as [Hbn Hn].
  assert (Rb : 0 <= b <= Z.of_nat (List.length organic)) by (unfold b; lia).
  assert (Rn : Z.of_nat (List.length organic) <= 10) by lia.
  assert (Rf : 0 <= f <= 3) by (unfold f; destruct fs, kg, ad; lia).
  assert (Rc : 0 <= c <= 100 /\ Z.min (10 * b) 50 + 10 * f <= c).
  { unfold c, f.
    repeat match goal with
           | |- context [?x <? ?y] => destruct (Z.ltb_spec x y)
           end;
      destruct fs, kg, ad; lia. }
  destruct (estimate_range analysis c b f) as (p & Hp & Hlo & Hhi);
    try reflexivity; try lia.
  rewrite Hp. clearbody c. clearbody f. clearbody b. clearbody organic.
  subst analysis. unfold Analysis.set_first_page_probability.
  cbn [Analysis.keyword Analysis.error Analysis.competition_score
       Analysis.first_page_probability Analysis.organic_results_count
       Analysis.big_brands_count Analysis.serp_features_count].
  split; [reflexivity|]. split.
  - exists c, p. repeat split; try lia; assumption.
  - split; [reflexivity|].
    exists (Z.of_nat (List.length organic)), b, f, c.
    repeat split; try reflexivity; lia.
Qed.

(** Six results on one high-authority domain. *)
Example analysis_of_brands :
  let a := analyze_competition (fun s => s) (str_lit "jobs")
             (Some (results_of "www.linkedin.com" 6)) in
  Analysis.big_brands_count a = Some 6 /\
  Analysis.competition_score a = Some 50 /\
  Analysis.first_page_probability a = Some (lit 0.15).
Proof. vm_compute. repeat split. Qed.

End Competition.

(** ** Merging the keyword sources *)

Module Merge.

Import SEOKeywordAgent.

Section Loop.
Variable isspace : N -> bool.
Variable lower : str -> str.

Lemma str_eqb_eq (a b : str) : str_eqb a b = true <-> a = b.
Proof.
  unfold str_eqb. destruct (list_eq_dec N.eq_dec a b); split; congruence.
Qed.

Lemma seen_spec (k : str) (seen : list str) :
  existsb (str_eqb k) seen = true <-> In k seen.
Proof.
  rewrite existsb_exists. split.
  - intros (x & Hin & Heq). apply str_eqb_eq in Heq. subst. exact Hin.
  - intros Hin. exists k. split; [exact Hin|]. apply str_eqb_eq. reflexivity.
Qed.

(** What the loop keeps true: [seen] holds exactly the keywords
    collected, none twice, each the clean form of a keyword read and
    longer than 3; and no clean form longer than 3 was passed over. *)
Definition invariant (read : list str) (state : list str * list str) : Prop :=
  let '(seen, unique_keywords) := state in
  (forall k, In k seen <-> In k unique_keywords) /\
  NoDup unique_keywords /\
  (forall k, In k unique_keywords ->
             (3 < List.length k)%nat /\ exists kw, In kw read /\ k = clean isspace lower kw) /\
  (forall kw, In kw read -> (3 < List.length (clean isspace lower kw))%nat ->
              In (clean isspace lower kw) unique_keywords).

Lemma merge_step_invariant (read : list str) (state : list str * list str) (kw : str) :
  invariant read state -> invariant (read ++ [kw])%list (merge_step isspace lower state kw).
Proof.
  destruct state as [seen unique_keywords].
  intros (Hseen & Hnodup & Hsound & Hcomplete).
  unfold merge_step, invariant.
  destruct (negb (str_eqb (clean isspace lower kw) []) && negb (existsb (str_eqb (clean isspace lower kw)) seen)
            && (3 <? Z.of_nat (List.length (clean isspace lower kw)))) eqn:Hkeep.
  - apply andb_true_iff in Hkeep as [Hkeep Hlong].
    apply andb_true_iff in Hkeep as [_ Hnew].
    apply negb_true_iff in Hnew. apply Z.ltb_lt in Hlong.
    assert (Hfresh : ~ In (clean isspace lower kw) unique_keywords).
    { intros Hin. apply Hseen, seen_spec in Hin. congruence. }
    repeat split.
    + intros [<- | Hin]; apply in_or_app; [right; left; reflexivity|].
      left. apply Hseen. exact Hin.
    + intros Hin. apply in_app_or in Hin as [Hin | [<- | []]];
        [right; apply Hseen; exact Hin | left; reflexivity].
    + apply NoDup_app; [exact Hnodup | repeat constructor; intros [] |].
      intros k Hin [<- | []]. exact (Hfresh Hin).
    + apply in_app_or in H as [Hin | [<- | []]]; [apply Hsound; exact Hin | lia].
    + apply in_app_or in H as [Hin | [<- | []]].
      * destruct (Hsound k Hin) as (_ & kw0 & Hin0 & ->).
        exists kw0. split; [apply in_or_app; left; exact Hin0 | reflexivity].
      * exists kw. split; [apply in_or_app; right; left; reflexivity | reflexivity].
    + intros kw0 Hin Hlen. apply in_or_app.
      apply in_app_or in Hin as [Hin | [<- | []]].
      * left. apply Hcomplete; assumption.
      * right. left. reflexivity.
  - repeat split.
    + apply Hseen.
    + apply Hseen.
    + exact Hnodup.
    + apply Hsound. exact H.
    + destruct (Hsound k H) as (_ & kw0 & Hin0 & ->).
      exists kw0. split; [apply in_or_app; left; exact Hin0 | reflexivity].
    + intros kw0 Hin Hlen.
      apply in_app_or in Hin as [Hin | [<- | []]]; [apply Hcomplete; assumption|].
      apply andb_false_iff in Hkeep as [Hkeep | Hshort].
      * apply andb_false_iff in Hkeep as [Hempty | Hold].
        -- apply negb_false_iff, str_eqb_eq in Hempty.
           rewrite Hempty in Hlen. simpl in Hlen. lia.
        -- apply negb_false_iff, seen_spec in Hold. apply Hseen. exact Hold.
      * apply Z.ltb_ge in Hshort. lia.
Qed.

Lemma loop_invariant (rest read : list str) (state : list str * list str) :
  invariant read state -> invariant (read ++ rest)%list (fold_left (merge_step isspace lower) rest state).
Proof.
  revert read state. induction rest as [|kw rest IH]; intros read state Hinv.
  - rewrite app_nil_r. exact Hinv.
  - simpl. replace (read ++ kw :: rest)%list with ((read ++ [kw]) ++ rest)%list
      by (rewrite <- app_assoc; reflexivity).
    apply IH, merge_step_invariant, Hinv.
Qed.

End Loop.

(** X17.  The merged keyword list has no duplicates; each of its
    entries is the lower-cased, stripped form of a keyword of one of
    the three sources or of the lower-cased seed, and is longer than 3
    characters; and every such form longer than 3 characters is in
    the list.  So a keyword whose clean form has at most 3 characters
    is dropped, the seed included. *)
Theorem merge_keywords_spec (isspace : N -> bool) (lower : str -> str)
    (llm_kw serp_kw trends_kw : list str) (seed_kw : str) :
  let all_keywords := (llm_kw ++ serp_kw ++ trends_kw ++ [lower seed_kw])%list in
  let merged := _merge_keywords isspace lower llm_kw serp_kw trends_kw seed_kw in
  NoDup merged /\
  (forall k, In k merged ->
     (3 < List.length k)%nat /\
     exists kw, In kw all_keywords /\ k = clean isspace lower kw) /\
  (forall kw, In kw all_keywords ->
     (3 < List.length (clean isspace lower kw))%nat ->
     In (clean isspace lower kw) merged) /\
  (forall kw, (List.length (clean isspace lower kw) <= 3)%nat ->
     ~ In (clean isspace lower kw) merged).
Proof.
  cbv zeta. unfold _merge_keywords.
  replace ((llm_kw ++ serp_kw ++ trends_kw) ++ [lower seed_kw])%list
    with (llm_kw ++ serp_kw ++ trends_kw ++ [lower seed_kw])%list
    by (rewrite <- !app_assoc; reflexivity).
  pose proof (loop_invariant isspace lower
                (llm_kw ++ serp_kw ++ trends_kw ++ [lower seed_kw])%list
                [] ([], [])) as Hinv.
  simpl app in Hinv.
  destruct (fold_left _ _ _) as [seen unique_keywords].
  destruct Hinv as (_ & Hnodup & Hsound & Hcomplete).
  { simpl. repeat split; try tauto; try constructor; intros ? []. }
  simpl snd. repeat split.
  - exact Hnodup.
  - apply Hsound. exact H.
  - apply Hsound. exact H.
  - exact Hcomplete.
  - intros kw Hshort Hin. apply Hsound in Hin. lia.
Qed.

Lemma merge_keywords_spec_witness :
  In (str_lit "seo tools")
    (_merge_keywords ascii_isspace ascii_lower
       [str_lit "SEO Tools "; str_lit "seo"] [str_lit " seo tools"] []
       (str_lit "SEO")) /\
  ~ In (str_lit "seo")
    (_merge_keywords ascii_isspace ascii_lower
       [str_lit "SEO Tools "; str_lit "seo"] [str_lit " seo tools"] []
       (str_lit "SEO")).
Proof.
  pose proof (merge_keywords_spec ascii_isspace ascii_lower
                [str_lit "SEO Tools "; str_lit "seo"] [str_lit " seo tools"] []
                (str_lit "SEO")) as (_ & _ & Hcomplete & Hdrop).
  split.
  - apply (Hcomplete (str_lit "SEO Tools ")).
    + simpl. left. reflexivity.
    + vm_compute. lia.
  - apply (Hdrop (str_lit "seo")). vm_compute. lia.
Defined.

End Merge.
